(** * libsql-shell-go: value formatting, result printing and the [.dump] command

    A shallow embedding of [src/lib/output.go] (package [lib]) and of
    [internal/shellcmd/dump.go] (package [shellcmd]), and the properties of
    the specification that concern them.

    Conventions of the embedding:
    - a Go function returning [(T, error)] returns an [outcome T]: [Done]
      for a nil error, [Fail] for a non-nil one, [Panic] when the Go run time
      panics inside it and [Hang] when it blocks for ever on a channel;
    - a Go channel is the finite sequence of elements its producer sends
      before closing it, [None] being the nil channel;
    - code that writes to the output sink, runs SQL or receives from a
      channel is an [io] computation: the ordered [event]s it performs
      together with its outcome;
    - a dynamically typed Go value is seen as the [reflect] package shows
      it: through its kind, its type name, its fields and its map entries. *)

From Stdlib Require Import ZArith NArith Ascii String List Lia.
From stdpp Require Import base option list strings gmap pretty.
From coqutil Require Import Z.bitblast.

Open Scope string_scope.
Open Scope list_scope.
Open Scope Z_scope.

(** ** Errors *)

(** Go [error] values, by the way they are built. *)
Inductive error : Type :=
| InvalidStatementsResult                  (* &InvalidStatementsResult{} *)
| UnableToPrintStatementResult             (* &UnableToPrintStatementResult{} *)
| ErrorsNew (msg : string)                 (* errors.New(msg) *)
| Errorf (msg : string)                    (* fmt.Errorf(...) without %w: the text *)
| ErrorfW (prefix : string) (inner : error) (* fmt.Errorf(prefix + "%w", inner) *)
| ErrorsJoin (e1 e2 : error)               (* errors.Join(e1, e2) *)
| CorruptInputError (offset : Z)           (* base64.CorruptInputError(offset) *)
| Upstream (msg : string).                 (* an error reported by the driver *)

Inductive outcome (A : Type) : Type :=
| Done (a : A)
| Fail (e : error)
| Panic (msg : string)
| Hang.
Arguments Done {A} a.
Arguments Fail {A} e.
Arguments Panic {A} msg.
Arguments Hang {A}.

Definition obind {A B} (m : outcome A) (f : A -> outcome B) : outcome B :=
  match m with
  | Done a => f a
  | Fail e => Fail e
  | Panic msg => Panic msg
  | Hang => Hang
  end.

(** ** Values under reflection *)

(** [reflect.Kind]. *)
Inductive Kind : Type :=
| Invalid | Bool
| Int | Int8 | Int16 | Int32 | Int64
| Uint | Uint8 | Uint16 | Uint32 | Uint64 | Uintptr
| Float32 | Float64 | Complex64 | Complex128
| Array | Chan | Func | Interface | Map | Pointer | Slice | String | Struct
| UnsafePointer.

(** [Kind.String()]. *)
Definition Kind_String (k : Kind) : string :=
  match k with
  | Invalid => "invalid" | Bool => "bool"
  | Int => "int" | Int8 => "int8" | Int16 => "int16" | Int32 => "int32"
  | Int64 => "int64"
  | Uint => "uint" | Uint8 => "uint8" | Uint16 => "uint16"
  | Uint32 => "uint32" | Uint64 => "uint64" | Uintptr => "uintptr"
  | Float32 => "float32" | Float64 => "float64"
  | Complex64 => "complex64" | Complex128 => "complex128"
  | Array => "array" | Chan => "chan" | Func => "func"
  | Interface => "interface" | Map => "map" | Pointer => "ptr"
  | Slice => "slice" | String => "string" | Struct => "struct"
  | UnsafePointer => "unsafe.Pointer"
  end.

(** The integer kinds [formatRawTypes] accepts. *)
Inductive IntKind : Type :=
| KInt | KInt8 | KInt16 | KInt32 | KInt64
| KUint | KUint8 | KUint16 | KUint32 | KUint64.

Definition IntKind_Kind (k : IntKind) : Kind :=
  match k with
  | KInt => Int | KInt8 => Int8 | KInt16 => Int16 | KInt32 => Int32
  | KInt64 => Int64
  | KUint => Uint | KUint8 => Uint8 | KUint16 => Uint16 | KUint32 => Uint32
  | KUint64 => Uint64
  end.

Inductive FloatKind : Type := KFloat32 | KFloat64.

Definition FloatKind_Kind (k : FloatKind) : Kind :=
  match k with KFloat32 => Float32 | KFloat64 => Float64 end.

(** The fields of a [time.Time] that the layout ["2006-01-02 15:04:05"]
    shows. *)
Record Time : Type := mkTime {
  year : Z; month : Z; day : Z; hour : Z; minute : Z; second : Z
}.

(** What [formatMap] can tell of an element of a map, the value that
    [MapIndex] returns for a key that is present:
    - [EString s]: the element type has kind [String], the element is [s];
    - [EIface x]: the element type is an interface type (kind [Interface]);
      the element holds the dynamic value [x], or is nil;
    - [EOther k zero]: the element type has another kind [k]; [zero] tells
      whether the element is the zero value of its type.

    A [reflect.Value]:
    - [VZero] is the zero [reflect.Value] (kind [Invalid]), which
      [FieldByName] returns when the struct has no such field.
    - Scalars are of predeclared types, or of named types without
      formatting methods, so that [%v] prints their plain text.
    - A float is given by the decimal text
      [strconv.FormatFloat(f, 'f', -1, 64)] of its value, the shortest
      decimal that reads back as the same float.
    - [VSlice name elem bytes] is a slice: [name] is [Type().Name()] (empty
      for an unnamed type), [elem] the kind of the element type and [bytes]
      the elements when that kind is [Uint8], the element type being
      [uint8] itself.
    - [VStruct name fields] is a struct of type name [name] with its fields
      in declaration order; [VTime t] is a [time.Time], a struct that has
      no exported field.
    - [VMap strkey m] is a map (the nil map has no entry); [strkey] tells
      whether a [string] is assignable to its key type, and [m] holds the
      entries under string keys.
    - [VIface x] is a struct field of interface type (kind [Interface])
      holding [x], or nil; [reflect.ValueOf] never returns one.
    - [VOther k] is a value of any other kind [k]. *)
#[warnings="-register-all"]
Inductive value : Type :=
| VZero
| VBool (b : bool)
| VInt (k : IntKind) (n : Z)
| VFloat (k : FloatKind) (dec : string)
| VString (s : string)
| VSlice (name : string) (elem : Kind) (bytes : list Byte.byte)
| VStruct (name : string) (fields : list (string * value))
| VTime (t : Time)
| VMap (strkey : bool) (m : gmap string elem)
| VIface (x : option value)
| VOther (k : Kind)
with elem : Type :=
| EString (s : string)
| EIface (x : option value)
| EOther (k : Kind) (zero : bool).

(** [Value.Kind()]. *)
Definition Value_Kind (v : value) : Kind :=
  match v with
  | VZero => Invalid
  | VBool _ => Bool
  | VInt k _ => IntKind_Kind k
  | VFloat k _ => FloatKind_Kind k
  | VString _ => String
  | VSlice _ _ _ => Slice
  | VStruct _ _ => Struct
  | VTime _ => Struct
  | VMap _ _ => Map
  | VIface _ => Interface
  | VOther k => k
  end.

(** [Value.Type().Name()] of a struct. *)
Definition Struct_Name (v : value) : string :=
  match v with
  | VStruct name _ => name
  | VTime _ => "Time"
  | _ => ""
  end.

(** [Value.FieldByName(name)]: the field, or the zero [Value]. *)
Fixpoint lookup_field (name : string) (fields : list (string * value)) : value :=
  match fields with
  | [] => VZero
  | (n, v) :: rest => if String.eqb n name then v else lookup_field name rest
  end.

Definition FieldByName (v : value) (name : string) : value :=
  match v with
  | VStruct _ fields => lookup_field name fields
  | _ => VZero
  end.

(** [Value.IsValid()]. *)
Definition IsValid (v : value) : bool :=
  match v with VZero => false | _ => true end.

(** [Value.Bool()]: panics unless the kind is [Bool]. *)
Definition Value_Bool (v : value) : outcome bool :=
  match v with
  | VBool b => Done b
  | _ => Panic ("reflect: call of reflect.Value.Bool on "
                +:+ Kind_String (Value_Kind v) +:+ " Value")
  end.

(** [Value.MapIndex(reflect.ValueOf("base64"))] on a map: panics when a
    string is not assignable to the key type; [None] stands for the zero
    [Value] returned when the key is not found. Of the key type a [VMap]
    records only whether it takes a string, so the text of the panic ends
    with the words "the key type" where that of the run time names the
    type. *)
Definition MapIndex (strkey : bool) (m : gmap string elem) (key : string)
  : outcome (option elem) :=
  if strkey then Done (m !! key)
  else Panic "reflect.Value.MapIndex: value of type string is not assignable to the key type".

(** [Value.IsZero()] on the result of [MapIndex]: it panics on the zero
    [Value]; a string is zero when empty, an interface when nil. *)
Definition IsZero (e : option elem) : outcome bool :=
  match e with
  | None => Panic "reflect: call of reflect.Value.IsZero on zero Value"
  | Some (EString s) => Done (String.eqb s "")
  | Some (EIface x) => Done (match x with None => true | Some _ => false end)
  | Some (EOther _ zero) => Done zero
  end.

(** ** Text of scalars, times and bytes *)

(** The double quote character, as a string. *)
Definition dquote : string := String.String "034"%char "".

(** [fmt.Sprintf("%v", b)] for a bool. *)
Definition Sprint_bool (b : bool) : string := if b then "true" else "false".

(** [fmt.Sprintf("%v", n)] for an integer: base 10. *)
Definition Sprint_int (n : Z) : string := pretty n.

(** [appendInt(b, x, width)] of package [time]: [x] in base 10, padded with
    zeros to [width] digits, after a minus sign when negative. *)
Fixpoint zero_pad (n : nat) (s : string) : string :=
  match n with
  | O => s
  | S n' => zero_pad n' ("0" +:+ s)
  end.

Definition appendInt (x : Z) (width : nat) : string :=
  let digits := pretty (Z.abs x) in
  let padded := zero_pad (width - String.length digits) digits in
  if x <? 0 then "-" +:+ padded else padded.

(** [t.Format("2006-01-02 15:04:05")]. *)
Definition Time_Format (t : Time) : string :=
  appendInt (year t) 4 +:+ "-" +:+ appendInt (month t) 2 +:+ "-"
  +:+ appendInt (day t) 2 +:+ " " +:+ appendInt (hour t) 2 +:+ ":"
  +:+ appendInt (minute t) 2 +:+ ":" +:+ appendInt (second t) 2.

Definition byte_to_Z (b : Byte.byte) : Z := Z.of_N (Byte.to_N b).

(** Go's conversion [byte(x)]: the low eight bits. *)
Definition byte_of_Z (x : Z) : Byte.byte :=
  match Byte.of_N (Z.to_N (Z.land x 255)) with
  | Some b => b
  | None => Byte.x00
  end.

Definition upper_hex_digit (n : Z) : ascii :=
  match String.get (Z.to_nat n) "0123456789ABCDEF" with
  | Some c => c
  | None => "0"%char
  end.

(** The two upper-case hexadecimal digits of a byte, high nibble first. *)
Definition hex_pair (b : Byte.byte) : string :=
  String.String (upper_hex_digit (Z.shiftr (byte_to_Z b) 4))
    (String.String (upper_hex_digit (Z.land (byte_to_Z b) 15)) "").

Definition upper_hex (bs : list Byte.byte) : string :=
  String.concat "" (map hex_pair bs).

(** [formatBytes]: [fmt.Sprintf("0x%X", bytes)]. *)
Definition formatBytes (bytes : list Byte.byte) : string :=
  "0x" +:+ upper_hex bytes.

(** ** Package [encoding/base64]: [StdEncoding.WithPadding(NoPadding)] *)

(** The standard alphabet, [encodeStd]. *)
Definition encodeStd : string :=
  "ABCDEFGHIJKLMNOPQRSTUVWXYZabcdefghijklmnopqrstuvwxyz0123456789+/".

Fixpoint index_from (c : ascii) (alphabet : string) (i : Z) : option Z :=
  match alphabet with
  | EmptyString => None
  | String.String a rest =>
      if Ascii.eqb a c then Some i else index_from c rest (i + 1)
  end.

(** [enc.decodeMap[c]]: the position of [c] in the alphabet; [None] is the
    entry [0xff] of a character outside it. *)
Definition decodeMap (c : ascii) : option Z := index_from c encodeStd 0.

(** [enc.DecodedLen(n)] without padding: [n * 6 / 8]. *)
Definition DecodedLen (n : Z) : Z := n * 6 / 8.

(** The bytes that [decodeQuantum] stores for the sextets [q] of a quantum:
    three for a full quantum, [dlen - 1] for a final one of [dlen] sextets.
    The encoding is not strict: the unused low bits are dropped. *)
Definition quantum_bytes (q : list Z) : list Byte.byte :=
  let sextet (i : nat) := nth i q 0 in
  let val := Z.lor (Z.lor (Z.lor (Z.shiftl (sextet 0%nat) 18)
                                 (Z.shiftl (sextet 1%nat) 12))
                          (Z.shiftl (sextet 2%nat) 6))
                   (sextet 3%nat) in
  take (length q - 1)
       [byte_of_Z (Z.shiftr val 16); byte_of_Z (Z.shiftr val 8); byte_of_Z val].

(** The loop of [Decode] over [decodeQuantum]: [src] is the input from
    index [si] on and [q] the sextets read for the current quantum.
    Line feeds and carriage returns are skipped; any other character
    outside the alphabet is a [CorruptInputError] at its index; an input
    ending one sextet into a quantum is a [CorruptInputError] at
    [len(src) - 1]. *)
Fixpoint decode_quanta (src : list ascii) (si : Z) (q : list Z)
  : outcome (list Byte.byte) :=
  match src with
  | [] =>
      match q with
      | [] => Done []
      | [_] => Fail (CorruptInputError (si - 1))
      | _ => Done (quantum_bytes q)
      end
  | c :: rest =>
      match decodeMap c with
      | Some out =>
          let q' := q ++ [out] in
          if (length q' =? 4)%nat
          then obind (decode_quanta rest (si + 1) [])
                     (fun tail => Done (quantum_bytes q' ++ tail))
          else decode_quanta rest (si + 1) q'
      | None =>
          if (Ascii.eqb c "010" || Ascii.eqb c "013")%char
          then decode_quanta rest (si + 1) q
          else Fail (CorruptInputError si)
      end
  end.

(** [enc.Decode(dst, src)]: the decoded bytes are written at the start of
    [dst]. Returns [dst] after the call and the number of bytes written.
    The bytes of [dst] after the decoded ones are left as they were here;
    the library may store zeros in some of them. [decodeBase64ToHex], the
    only caller, passes a buffer of zeros, for which the two agree. *)
Definition Decode (dst : list Byte.byte) (src : string)
  : outcome (list Byte.byte * Z) :=
  obind (decode_quanta (list_ascii_of_string src) 0 [])
        (fun bs => Done (bs ++ drop (length bs) dst, Z.of_nat (length bs))).

(** ** [output.go]: the value formatter *)

Definition formatRawTypes (v : value) : outcome string :=
  match v with
  | VBool b => Done (Sprint_bool b)
  | VInt _ n => Done (Sprint_int n)
  | VString s => Done s
  | VFloat _ dec => Done dec
  | _ => Fail (Errorf ("unsupported raw type: " +:+ Kind_String (Value_Kind v)))
  end.

(** [value.FieldByName("Time").Interface().(time.Time)]: [Interface] panics
    on the zero [Value], the type assertion on any value that is not a
    [time.Time]. *)
Definition Interface_Time (v : value) : outcome Time :=
  match v with
  | VTime t => Done t
  | VIface (Some (VTime t)) => Done t
  | VZero => Panic "reflect: call of reflect.Value.Interface on zero Value"
  | _ => Panic "interface conversion: interface {} is not time.Time"
  end.

Definition formatStruct (v : value) : outcome string :=
  if negb (IsValid (FieldByName v "Valid")) then
    Fail (Errorf ("unsupported struct type: " +:+ Struct_Name v
                  +:+ ". missing Valid field"))
  else
    obind (Value_Bool (FieldByName v "Valid")) (fun valid =>
    if negb valid then Done "NULL"
    else
      let name := Struct_Name v in
      if String.eqb name "NullBool" then formatRawTypes (FieldByName v "Bool")
      else if String.eqb name "NullFloat64" then formatRawTypes (FieldByName v "Float64")
      else if String.eqb name "NullByte" then formatRawTypes (FieldByName v "Byte")
      else if String.eqb name "NullInt16" then formatRawTypes (FieldByName v "Int16")
      else if String.eqb name "NullInt32" then formatRawTypes (FieldByName v "Int32")
      else if String.eqb name "NullInt64" then formatRawTypes (FieldByName v "Int64")
      else if String.eqb name "NullString" then formatRawTypes (FieldByName v "String")
      else if String.eqb name "NullTime" then
        obind (Interface_Time (FieldByName v "Time")) (fun t => Done (Time_Format t))
      else Fail (Errorf ("unsupported struct type: " +:+ name))).

(** [value.Interface().([]byte)] succeeds on the type [[]byte] only, not
    on a named slice type. A [VSlice] records the name of its type, as
    [Type().Name()] gives it, without the package, so the text of the
    panic holds that name where that of the run time holds the name
    qualified by its package. *)
Definition formatSlice (v : value) : outcome string :=
  match v with
  | VSlice name Uint8 bytes =>
      if String.eqb name "" then Done (formatBytes bytes)
      else Panic ("interface conversion: interface {} is " +:+ name
                  +:+ ", not []uint8")
  | VSlice name _ _ => Fail (Errorf ("unsupported slice: " +:+ name))
  | _ => Panic "reflect: Elem of a type that is not a slice"
  end.

Definition decodeBase64ToHex (base64String : string) : outcome string :=
  let decodedBase64 :=
    repeat Byte.x00 (Z.to_nat (DecodedLen (Z.of_nat (String.length base64String)))) in
  match Decode decodedBase64 base64String with
  | Done (decodedBase64, _) => Done (formatBytes decodedBase64)
  | Fail err =>
      Fail (ErrorsJoin (ErrorsNew "unable to decode base64 value") err)
  | Panic msg => Panic msg
  | Hang => Hang
  end.

Definition formatMap (v : value) : outcome string :=
  match v with
  | VMap strkey m =>
      obind (MapIndex strkey m "base64") (fun base64Value =>
      obind (IsZero base64Value) (fun zero =>
      if zero then
        Fail (Errorf ("unsupported map: no " +:+ dquote +:+ "base64" +:+ dquote
                      +:+ " field"))
      else
        match base64Value with
        | Some (EIface (Some (VString s))) => decodeBase64ToHex s
        | Some (EString s) => decodeBase64ToHex s
        | _ => Fail (Errorf ("unsupported map. unsupported " +:+ dquote
                             +:+ "base64" +:+ dquote +:+ " field kind"))
        end))
  | _ => Panic "reflect: call of reflect.Value.MapIndex on a value that is not a map"
  end.

(** [formatValue(val)]: [None] is the nil interface; [Some v] a value whose
    [reflect.ValueOf] is [v]. *)
Definition formatValue (val : option value) : outcome string :=
  match val with
  | None => Done "NULL"
  | Some rv =>
      match Value_Kind rv with
      | Struct => formatStruct rv
      | Slice => formatSlice rv
      | Map => formatMap rv
      | _ =>
          match formatRawTypes rv with
          | Fail _ => Fail (Errorf ("unsupported type: " +:+ Kind_String (Value_Kind rv)))
          | r => r
          end
      end
  end.

Fixpoint formatData (row : list (option value)) : outcome (list string) :=
  match row with
  | [] => Done []
  | val :: rest =>
      obind (formatValue val) (fun result =>
      obind (formatData rest) (fun formattedRow =>
      Done (result :: formattedRow)))
  end.

(** ** Result streams, and code that acts on the outside world *)

(** A row of a result: [Row] and [Err] of the Go struct. *)
Record RowResult : Type := mkRowResult {
  Row : list (option value);
  RowErr : option error
}.

(** [StatementResult] (packages [lib] and [db] use the same three
    fields). The zero value is what a receive from a closed channel
    yields. *)
Record StatementResult : Type := mkStatementResult {
  ColumnNames : list string;
  RowCh : option (list RowResult);
  Err : option error
}.

Definition zero_StatementResult : StatementResult :=
  mkStatementResult [] None None.

Record StatementsResult : Type := mkStatementsResult {
  StatementResultCh : option (list StatementResult)
}.

(** The query a channel belongs to. *)
Inductive query : Type :=
| ShellQuery                       (* statements run from the shell *)
| TableNamesQuery                  (* getDbTableNames *)
| SchemaQuery (tableName : string) (* getTableSchema *)
| RecordsQuery (tableName : string). (* getTableRecords *)

Inductive chan : Type :=
| StatementsOf (q : query)  (* a StatementResultCh *)
| RowsOf (q : query).       (* a RowCh *)

(** What the code does to the outside world, in order. *)
Inductive event : Type :=
| Exec (sql : string)     (* config.Db.ExecuteStatements(sql) *)
| Recv (c : chan)         (* a receive that yields an element *)
| Closed (c : chan)       (* a receive that finds the channel closed *)
| Println (line : string) (* fmt.Fprintln(config.OutF, line) *)
| Render (header : option (list string)) (rows : list (list string)).
                          (* table.Render() of the rows appended so far *)

Definition io (A : Type) : Type := (list event * outcome A)%type.

Definition ret {A} (a : A) : io A := ([], Done a).

Definition bind {A B} (m : io A) (f : A -> io B) : io B :=
  match m with
  | (t, Done a) => let (t', r) := f a in (t ++ t', r)
  | (t, Fail e) => (t, Fail e)
  | (t, Panic msg) => (t, Panic msg)
  | (t, Hang) => (t, Hang)
  end.

Notation "'let!' x ':=' m 'in' k" := (bind m (fun x => k))
  (at level 10, x pattern, m at level 200, k at level 200).
Notation "m >> k" := (bind m (fun _ => k))
  (at level 65, right associativity).

Definition emit (e : event) : io unit := ([e], Done tt).

(** An effect-free call: no event, the outcome of the call. *)
Definition lift {A} (r : outcome A) : io A := ([], r).

(** [return err] for an [err] that may be nil. *)
Definition return_error (err : option error) : io unit :=
  match err with
  | Some e => lift (Fail e)
  | None => ret tt
  end.

(** The lines and tables written to the output sink. *)
Definition is_write (e : event) : bool :=
  match e with
  | Println _ | Render _ _ => true
  | _ => false
  end.

Definition written (t : list event) : list event := List.filter is_write t.

(** The lines written with [Println]. *)
Fixpoint lines (t : list event) : list string :=
  match t with
  | [] => []
  | Println l :: rest => l :: lines rest
  | _ :: rest => lines rest
  end.

(** [<-ch] on a [StatementResultCh]: the first element; the zero value
    when the channel is closed and empty; blocks on a nil channel. *)
Definition receive_statement (q : query) (ch : option (list StatementResult))
  : io StatementResult :=
  match ch with
  | None => lift Hang
  | Some [] => emit (Closed (StatementsOf q)) >> ret zero_StatementResult
  | Some (statementResult :: _) =>
      emit (Recv (StatementsOf q)) >> ret statementResult
  end.

(** ** [output.go]: printing results *)

(** The loop of [PrintStatementResult] over the rows; [table] holds the
    rows appended so far. The table is written by [Render] only. *)
Fixpoint PrintStatementResult_rows (rows : list RowResult)
    (header : option (list string)) (table : list (list string)) : io unit :=
  match rows with
  | [] => emit (Closed (RowsOf ShellQuery)) >> emit (Render header table)
  | row :: rest =>
      emit (Recv (RowsOf ShellQuery)) >>
      return_error (RowErr row) >>
      let! formattedRow := lift (formatData (Row row)) in
      PrintStatementResult_rows rest header (table ++ [formattedRow])
  end.

Definition PrintStatementResult (statementResult : StatementResult)
    (withoutHeader : bool) : io unit :=
  match RowCh statementResult with
  | None => lift (Fail UnableToPrintStatementResult)
  | Some rows =>
      if (length (ColumnNames statementResult) =? 0)%nat then ret tt
      else
        let header :=
          if negb withoutHeader then Some (ColumnNames statementResult)
          else None in
        PrintStatementResult_rows rows header []
  end.

Fixpoint PrintStatementsResult_statements (statements : list StatementResult)
    (withoutHeader : bool) : io unit :=
  match statements with
  | [] => emit (Closed (StatementsOf ShellQuery))
  | statementResult :: rest =>
      emit (Recv (StatementsOf ShellQuery)) >>
      return_error (Err statementResult) >>
      PrintStatementResult statementResult withoutHeader >>
      PrintStatementsResult_statements rest withoutHeader
  end.

Definition PrintStatementsResult (statementsResult : StatementsResult)
    (withoutHeader : bool) : io unit :=
  match StatementResultCh statementsResult with
  | None => lift (Fail InvalidStatementsResult)
  | Some statements => PrintStatementsResult_statements statements withoutHeader
  end.

(** ** [dump.go]: the [.dump] command *)

(** [db.FormatMode]. *)
Inductive FormatMode : Type := TABLE | SQLITE.

(** [DbCmdConfig]: [Db.ExecuteStatements] answers an SQL text with a
    statement stream or an error ([OutF] is the sink of the [Println]
    events). The dump only reads the database, which is a function of the
    SQL text here. *)
Record DbCmdConfig : Type := mkDbCmdConfig {
  Db_ExecuteStatements : string -> outcome StatementsResult
}.

Definition ExecuteStatements (config : DbCmdConfig) (sql : string)
  : io StatementsResult :=
  emit (Exec sql) >> lift (Db_ExecuteStatements config sql).

Definition table_names_sql : string :=
  "SELECT name FROM sqlite_master WHERE type='table' and name not like 'sqlite_%' and name != '_litestream_seq' and name != '_litestream_lock' and name != 'libsql_wasm_func_table'".

Definition schema_sql (formattedTableName : string) : string :=
  "SELECT type, sql || ';' FROM sqlite_master WHERE TBL_NAME='"
  +:+ formattedTableName +:+ "'".

Definition records_sql (formattedTableName : string) : string :=
  "SELECT * FROM '" +:+ formattedTableName +:+ "'".

(** [strings.Join(elems, sep)]. *)
Definition strings_Join (elems : list string) (sep : string) : string :=
  String.concat sep elems.

(** Package [db] is not among the sources at hand: the three functions
    of it that [dump.go] calls are the fields of a class, and all that
    follows holds for any such functions. *)
Class DbPackage : Type := {
  FormatData : list (option value) -> FormatMode -> outcome (list string);
  NeedsEscaping : string -> bool;
  EscapeSingleQuotes : string -> string
}.

Section Dump.

Context `{db : DbPackage}.

Definition getDbTableNames (config : DbCmdConfig) : io StatementResult :=
  let! listTablesResult := ExecuteStatements config table_names_sql in
  let! statementResult :=
    receive_statement TableNamesQuery (StatementResultCh listTablesResult) in
  return_error (Err statementResult) >>
  ret statementResult.

(** The loop of [getTableSchema] over the rows of [statementResult],
    with the named results [createTable] and [otherStmts] so far. On a
    row that carries an error the code returns [statementResult.Err],
    the error slot of the statement, with empty results. *)
Fixpoint getTableSchema_rows (tableName : string)
    (statementResult_Err : option error) (rows : list RowResult)
    (createTable : string) (otherStmts : list string)
  : io (string * list string) :=
  match rows with
  | [] => emit (Closed (RowsOf (SchemaQuery tableName))) >>
          ret (createTable, otherStmts)
  | statementRowResult :: rest =>
      emit (Recv (RowsOf (SchemaQuery tableName))) >>
      match RowErr statementRowResult with
      | Some _ => return_error statementResult_Err >> ret ("", [])
      | None =>
          match FormatData (Row statementRowResult) TABLE with
          | Fail err => lift (Fail (ErrorfW "failed to format data: " err))
          | Panic msg => lift (Panic msg)
          | Hang => lift Hang
          | Done formatted =>
              match formatted with
              | [kind; sql] =>
                  if String.eqb kind "table"
                  then getTableSchema_rows tableName statementResult_Err
                         rest sql otherStmts
                  else getTableSchema_rows tableName statementResult_Err
                         rest createTable (otherStmts ++ [sql])
              | _ =>
                  lift (Fail (Errorf ("expected 2 columns, got "
                                      +:+ pretty (Z.of_nat (length formatted)))))
              end
          end
      end
  end.

Definition getTableSchema (config : DbCmdConfig) (tableName : string)
  : io (string * list string) :=
  let formattedTableName := EscapeSingleQuotes tableName in
  let! tableInfoResult :=
    ExecuteStatements config (schema_sql formattedTableName) in
  let! statementResult :=
    receive_statement (SchemaQuery tableName)
                      (StatementResultCh tableInfoResult) in
  return_error (Err statementResult) >>
  match RowCh statementResult with
  | None => lift Hang
  | Some rows =>
      getTableSchema_rows tableName (Err statementResult) rows "" []
  end.

Definition getTableRecords (config : DbCmdConfig) (tableName : string)
  : io StatementResult :=
  let formattedTableName := EscapeSingleQuotes tableName in
  let! tableRecordsResult :=
    ExecuteStatements config (records_sql formattedTableName) in
  let! statementResult :=
    receive_statement (RecordsQuery tableName)
                      (StatementResultCh tableRecordsResult) in
  return_error (Err statementResult) >>
  ret statementResult.

(** The text that [dumpTableRecords] prints for a formatted row. *)
Definition insertStatement (tableName : string)
    (tableRecordsFormattedRow : list string) : string :=
  let formattedTableName :=
    if NeedsEscaping tableName
    then "'" +:+ EscapeSingleQuotes tableName +:+ "'"
    else tableName in
  "INSERT INTO " +:+ formattedTableName +:+ " VALUES ("
  +:+ strings_Join tableRecordsFormattedRow ", " +:+ ");".

Fixpoint dumpTableRecords_rows (rows : list RowResult) (tableName : string)
  : io unit :=
  match rows with
  | [] => emit (Closed (RowsOf (RecordsQuery tableName)))
  | tableRecordsRowResult :: rest =>
      emit (Recv (RowsOf (RecordsQuery tableName))) >>
      return_error (RowErr tableRecordsRowResult) >>
      let! tableRecordsFormattedRow :=
        lift (FormatData (Row tableRecordsRowResult) SQLITE) in
      emit (Println (insertStatement tableName tableRecordsFormattedRow)) >>
      dumpTableRecords_rows rest tableName
  end.

Definition dumpTableRecords (tableRecordsStatementResult : StatementResult)
    (tableName : string) : io unit :=
  match RowCh tableRecordsStatementResult with
  | None => lift Hang
  | Some rows => dumpTableRecords_rows rows tableName
  end.

(** The body of the loop of [dumpTables], after the error check of the
    row: the work done for one table. *)
Definition dumpTable (config : DbCmdConfig) (row : list (option value))
  : io unit :=
  let! formattedRow := lift (FormatData row TABLE) in
  match formattedRow with
  | [] => lift (Panic "runtime error: index out of range [0] with length 0")
  | formattedTableName :: _ =>
      let! (createTableStmt, otherStmts) :=
        getTableSchema config formattedTableName in
      emit (Println createTableStmt) >>
      let! tableRecordsStatementResult :=
        getTableRecords config formattedTableName in
      dumpTableRecords tableRecordsStatementResult formattedTableName >>
      fold_right (fun stmt k => emit (Println stmt) >> k) (ret tt) otherStmts
  end.

Fixpoint dumpTables_rows (rows : list RowResult) (config : DbCmdConfig)
  : io unit :=
  match rows with
  | [] => emit (Closed (RowsOf TableNamesQuery))
  | tableNameRowResult :: rest =>
      emit (Recv (RowsOf TableNamesQuery)) >>
      return_error (RowErr tableNameRowResult) >>
      dumpTable config (Row tableNameRowResult) >>
      dumpTables_rows rest config
  end.

Definition dumpTables (getTableStatementResult : StatementResult)
    (config : DbCmdConfig) : io unit :=
  match RowCh getTableStatementResult with
  | None => lift Hang
  | Some rows => dumpTables_rows rows config
  end.

(** [dumpCmd.RunE]; [None] when the command context holds no
    [DbCmdConfig]. *)
Definition dumpCmd_RunE (config : option DbCmdConfig) : io unit :=
  match config with
  | None => lift (Fail (Errorf "missing db connection"))
  | Some config =>
      emit (Println "PRAGMA foreign_keys=OFF;") >>
      let! getTableNamesStatementResult := getDbTableNames config in
      dumpTables getTableNamesStatementResult config
  end.

End Dump.

(** ** The reference encoder of [encoding/base64] *)

(** [enc.encode[i]]: the character of the alphabet at position [i]. *)
Definition encode (i : Z) : ascii :=
  match String.get (Z.to_nat i) encodeStd with
  | Some c => c
  | None => "A"%char
  end.

(** [enc.Encode] without padding: four characters for every three bytes,
    then two or three characters for a remainder of one or two bytes. *)
Fixpoint Encode (src : list Byte.byte) : list ascii :=
  match src with
  | [] => []
  | [a] =>
      let val := Z.shiftl (byte_to_Z a) 16 in
      [encode (Z.land (Z.shiftr val 18) 63); encode (Z.land (Z.shiftr val 12) 63)]
  | [a; b] =>
      let val := Z.lor (Z.shiftl (byte_to_Z a) 16) (Z.shiftl (byte_to_Z b) 8) in
      [encode (Z.land (Z.shiftr val 18) 63); encode (Z.land (Z.shiftr val 12) 63);
       encode (Z.land (Z.shiftr val 6) 63)]
  | a :: b :: c :: rest =>
      let val := Z.lor (Z.lor (Z.shiftl (byte_to_Z a) 16)
                              (Z.shiftl (byte_to_Z b) 8))
                       (byte_to_Z c) in
      encode (Z.land (Z.shiftr val 18) 63) :: encode (Z.land (Z.shiftr val 12) 63)
      :: encode (Z.land (Z.shiftr val 6) 63) :: encode (Z.land val 63)
      :: Encode rest
  end.

(** [enc.EncodeToString(src)]: the base64 text of [src], standard
    alphabet, no padding. *)
Definition EncodeToString (src : list Byte.byte) : string :=
  string_of_list_ascii (Encode src).

(** ** Vocabulary of the properties *)

(** The wrapper type names that [formatStruct] knows. *)
Definition recognized_wrappers : list string :=
  ["NullBool"; "NullFloat64"; "NullByte"; "NullInt16"; "NullInt32";
   "NullInt64"; "NullString"; "NullTime"].

Definition recognized_wrapper (name : string) : bool :=
  existsb (String.eqb name) recognized_wrappers.

(** A format error: a non-nil [error], as opposed to a panic. *)
Definition is_FormatError {A} (r : outcome A) : Prop := exists e, r = Fail e.


Definition base64_map_boxed (s : string) : option value :=
  Some (VMap true {[ "base64" := EIface (Some (VString s)) ]}).

Definition base64_map_unboxed (s : string) : option value :=
  Some (VMap true {[ "base64" := EString s ]}).

Definition byte_slice (b : list Byte.byte) : option value :=
  Some (VSlice "" Uint8 b).

(** A character outside the alphabet, other than a line feed or a
    carriage return, makes the decoder fail with a [CorruptInputError]. *)
Definition corrupt_char (c : ascii) : bool :=
  match decodeMap c with
  | Some _ => false
  | None => negb (Ascii.eqb c "010" || Ascii.eqb c "013")
  end.


(** A row without error whose values are all formatted. *)
Definition formats_to (r : RowResult) (formattedRow : list string) : Prop :=
  RowErr r = None /\ formatData (Row r) = Done formattedRow.

Definition good_row (r : RowResult) : Prop := exists f, formats_to r f.

(** A row that carries the error [e], or one of whose values fails
    formatting with [e]. *)
Definition row_fails (r : RowResult) (e : error) : Prop :=
  RowErr r = Some e \/ (RowErr r = None /\ formatData (Row r) = Fail e).

Definition header_of (statementResult : StatementResult) (withoutHeader : bool)
  : option (list string) :=
  if negb withoutHeader then Some (ColumnNames statementResult) else None.


(** A statement that carries the error [e], or whose printing fails with
    [e]. *)
Definition statement_fails (withoutHeader : bool) (sr : StatementResult)
    (e : error) : Prop :=
  Err sr = Some e
  \/ (Err sr = None /\ snd (PrintStatementResult sr withoutHeader) = Fail e).


(** The CREATE TABLE statement that [getTableSchema] returns for schema
    rows of the given kinds and texts: the text of the last row of kind
    ["table"], or [createTable] when there is none. *)
Definition create_of (ksqls : list (string * string)) (createTable : string)
  : string :=
  fold_left (fun acc ks => if String.eqb (fst ks) "table" then snd ks else acc)
            ksqls createTable.

Definition not_table (ks : string * string) : bool :=
  negb (String.eqb (fst ks) "table").

(** The other statements: the texts of the rows of another kind, in
    order. *)
Definition aux_of (ksqls : list (string * string)) : list string :=
  map snd (List.filter not_table ksqls).

(** The receives from the row stream of the enumeration query. *)
Definition enumeration_event (e : event) : bool :=
  match e with
  | Recv (RowsOf TableNamesQuery) | Closed (RowsOf TableNamesQuery) => true
  | _ => false
  end.

(** In the events [t] of [dumpTables], the enumeration stream is consumed
    before anything else is done: no event of the enumeration follows an
    event of another kind. *)
Fixpoint enumeration_first (t : list event) : bool :=
  match t with
  | [] => true
  | e :: rest =>
      if enumeration_event e then enumeration_first rest
      else forallb (fun e' => negb (enumeration_event e')) rest
  end.

Record dumped_table : Type := mkDumpedTable {
  dt_name : string;
  dt_before : list (string * string);
  dt_create : string;
  dt_after : list (string * string);
  dt_cells : list (list string)
}.

(** The query [sql] is answered by a statement without error whose row
    stream holds [rows]. *)
Definition answers (config : DbCmdConfig) (sql : string)
    (rows : list RowResult) : Prop :=
  exists statementsResult statementResult more,
    Db_ExecuteStatements config sql = Done statementsResult
    /\ StatementResultCh statementsResult = Some (statementResult :: more)
    /\ Err statementResult = None
    /\ RowCh statementResult = Some rows.

Section DumpVocabulary.

Context `{db : DbPackage}.

(** A schema row without error, formatted as a kind and a text. *)
Definition schema_row_is (r : RowResult) (ks : string * string) : Prop :=
  RowErr r = None /\ FormatData (Row r) TABLE = Done [fst ks; snd ks].

(** A data row without error and its formatted cells. *)
Definition record_row_is (r : RowResult) (f : list string) : Prop :=
  RowErr r = None /\ FormatData (Row r) SQLITE = Done f.

(** What a table-name row leads to when nothing fails: the name
    [name], schema rows of kinds and texts [ksqls], data rows of cells
    [formatted]. *)
Definition table_dump (config : DbCmdConfig) (row : list (option value))
    (name : string) (ksqls : list (string * string))
    (formatted : list (list string)) : Prop :=
  (exists rest, FormatData row TABLE = Done (name :: rest))
  /\ (exists rows, answers config (schema_sql (EscapeSingleQuotes name)) rows
                   /\ Forall2 schema_row_is rows ksqls)
  /\ (exists rows, answers config (records_sql (EscapeSingleQuotes name)) rows
                   /\ Forall2 record_row_is rows formatted).

(** The events of [dumpTableRecords] for data rows of cells
    [formatted]: a receive and a line for each, in order. *)
Definition record_events (tableName : string) (formatted : list (list string))
  : list event :=
  concat (map (fun f => [Recv (RowsOf (RecordsQuery tableName));
                         Println (insertStatement tableName f)]) formatted).

(** The events of the work done for one table when nothing fails. *)
Definition table_events (name : string) (ksqls : list (string * string))
    (formatted : list (list string)) : list event :=
  [Exec (schema_sql (EscapeSingleQuotes name));
   Recv (StatementsOf (SchemaQuery name))]
  ++ repeat (Recv (RowsOf (SchemaQuery name))) (length ksqls)
  ++ [Closed (RowsOf (SchemaQuery name));
      Println (create_of ksqls "");
      Exec (records_sql (EscapeSingleQuotes name));
      Recv (StatementsOf (RecordsQuery name))]
  ++ record_events name formatted
  ++ [Closed (RowsOf (RecordsQuery name))]
  ++ map Println (aux_of ksqls).

(** The lines written for one table: the CREATE TABLE statement, the
    INSERT lines in the order of the data rows, the other statements
    in the order of the schema rows. *)
Definition table_lines (name : string) (createTableStmt : string)
    (formatted : list (list string)) (otherStmts : list string)
  : list string :=
  createTableStmt :: map (insertStatement name) formatted ++ otherStmts.

(** A table-name row that is dumped without failure: its schema rows
    are [dt_before], one row of kind ["table"] and text [dt_create], and
    [dt_after], none of kind ["table"]; its data rows have the cells
    [dt_cells]. *)
Definition dumped_as (config : DbCmdConfig) (r : RowResult)
    (d : dumped_table) : Prop :=
  RowErr r = None
  /\ forallb not_table (dt_before d ++ dt_after d) = true
  /\ table_dump config (Row r) (dt_name d)
       (dt_before d ++ ("table", dt_create d) :: dt_after d) (dt_cells d).

Definition dumped_lines (d : dumped_table) : list string :=
  table_lines (dt_name d) (dt_create d) (dt_cells d)
              (map snd (dt_before d ++ dt_after d)).

(** A data row that carries the error [e], or one of whose values fails
    formatting with [e]. *)
Definition record_row_fails (r : RowResult) (e : error) : Prop :=
  RowErr r = Some e
  \/ (RowErr r = None /\ FormatData (Row r) SQLITE = Fail e).




End DumpVocabulary.

(** ** A database and a formatter for the examples *)

(** Modelled from the spec: [db.NeedsEscaping], of package [db], which is
    not among the sources at hand. Section 4.2: true if the identifier
    contains a single-quote character. *)
Fixpoint spec_NeedsEscaping (identifier : string) : bool :=
  match identifier with
  | EmptyString => false
  | String.String c rest =>
      if Ascii.eqb c "'" then true else spec_NeedsEscaping rest
  end.

(** Modelled from the spec: [db.EscapeSingleQuotes], of package [db].
    Section 4.2: replaces every single-quote with two consecutive
    single-quotes. *)
Fixpoint spec_EscapeSingleQuotes (text : string) : string :=
  match text with
  | EmptyString => EmptyString
  | String.String c rest =>
      if Ascii.eqb c "'"
      then String.String c (String.String c (spec_EscapeSingleQuotes rest))
      else String.String c (spec_EscapeSingleQuotes rest)
  end.

(** Modelled from the spec: [db.FormatData], of package [db]. Section 4.1
    gives one classification of values for both modes, with the same text
    in each; the examples take that of [formatData] in [output.go]. *)
Definition spec_FormatData (row : list (option value)) (mode : FormatMode)
  : outcome (list string) :=
  formatData row.

Definition text_row (cells : list string) : RowResult :=
  mkRowResult (map (fun s => Some (VString s)) cells) None.

Definition one_statement (columns : list string) (rows : list RowResult)
  : outcome StatementsResult :=
  Done (mkStatementsResult (Some [mkStatementResult columns (Some rows) None])).

(** A database of two tables: [t], with two rows and an index, and [u],
    empty. *)
Definition demo_db (sql : string) : outcome StatementsResult :=
  if String.eqb sql table_names_sql then
    one_statement ["name"] [text_row ["t"]; text_row ["u"]]
  else if String.eqb sql (schema_sql "t") then
    one_statement ["type"; "sql || ';'"]
      [text_row ["table"; "CREATE TABLE t (a);"];
       text_row ["index"; "CREATE INDEX i ON t (a);"]]
  else if String.eqb sql (records_sql "t") then
    one_statement ["a"]
      [mkRowResult [Some (VInt KInt64 1)] None; mkRowResult [None] None]
  else if String.eqb sql (schema_sql "u") then
    one_statement ["type"; "sql || ';'"]
      [text_row ["table"; "CREATE TABLE u (b);"]]
  else if String.eqb sql (records_sql "u") then
    one_statement ["b"] []
  else Fail (Upstream "no such table").

Definition demo_config : DbCmdConfig := mkDbCmdConfig demo_db.

(** The functions of package [db] taken in the examples. *)
Definition spec_db : DbPackage :=
  {| FormatData := spec_FormatData;
     NeedsEscaping := spec_NeedsEscaping;
     EscapeSingleQuotes := spec_EscapeSingleQuotes |}.

Definition demo_names : StatementResult :=
  mkStatementResult ["name"] (Some [text_row ["t"]; text_row ["u"]]) None.

(** A table [v] whose schema query returns an index and no row of kind
    ["table"], and a table [w] whose schema query returns two such rows. *)
Definition odd_db (sql : string) : outcome StatementsResult :=
  if String.eqb sql (schema_sql "v") then
    one_statement ["type"; "sql || ';'"]
      [text_row ["index"; "CREATE INDEX j ON v (a);"]]
  else if String.eqb sql (schema_sql "w") then
    one_statement ["type"; "sql || ';'"]
      [text_row ["table"; "CREATE TABLE w (a);"];
       text_row ["trigger"; "CREATE TRIGGER g;"];
       text_row ["table"; "CREATE TABLE w (a, b);"]]
  else one_statement ["a"] [mkRowResult [Some (VInt KInt64 1)] None].

Definition odd_config : DbCmdConfig := mkDbCmdConfig odd_db.



(** A database whose schema query for [t] returns a row that carries an
    error. *)
Definition failing_schema_config : DbCmdConfig :=
  mkDbCmdConfig (fun sql =>
    if String.eqb sql (schema_sql "t") then
      one_statement ["type"; "sql || ';'"]
        [text_row ["table"; "CREATE TABLE t (a);"];
         mkRowResult [] (Some (Upstream "disk I/O error"))]
    else one_statement ["a"] [mkRowResult [Some (VInt KInt64 1)] None]).

(** The text ["AA"] followed by a line feed. *)
Definition AA_newline : string :=
  String.String "A" (String.String "A" (String.String "010" "")).

(** ** More vocabulary *)

(** The wrapper types whose payload is formatted by [formatRawTypes], with
    the name of the payload field. *)
Definition scalar_wrappers : list (string * string) :=
  [("NullBool", "Bool"); ("NullFloat64", "Float64"); ("NullByte", "Byte");
   ("NullInt16", "Int16"); ("NullInt32", "Int32"); ("NullInt64", "Int64");
   ("NullString", "String")].

(** The values of the kinds that [formatRawTypes] accepts. *)
Definition is_raw (v : value) : bool :=
  match v with
  | VBool _ | VInt _ _ | VFloat _ _ | VString _ => true
  | _ => false
  end.

(** The value of an upper-case hexadecimal digit. *)
Definition hex_value (c : ascii) : option Z :=
  index_from c "0123456789ABCDEF" 0.

(** The bytes that a text of hexadecimal pairs stands for. *)
Fixpoint parse_hex (s : string) : option (list Byte.byte) :=
  match s with
  | EmptyString => Some []
  | String.String hi (String.String lo rest) =>
      match hex_value hi, hex_value lo, parse_hex rest with
      | Some h, Some l, Some bs => Some (byte_of_Z (Z.lor (Z.shiftl h 4) l) :: bs)
      | _, _, _ => None
      end
  | String.String _ EmptyString => None
  end.

(** The bytes that a blob text ["0x..."] stands for. *)
Definition parse_blob (s : string) : option (list Byte.byte) :=
  match s with
  | String.String "0" (String.String "x" rest) => parse_hex rest
  | _ => None
  end.

Definition in_alphabet (c : ascii) : bool :=
  match decodeMap c with Some _ => true | None => false end.

(** What [PrintStatementResult] renders for a statement whose rows are
    formatted as [formatted]: nothing when there is no column. *)
Definition rendered (withoutHeader : bool) (statementResult : StatementResult)
    (formatted : list (list string)) : list event :=
  match ColumnNames statementResult with
  | [] => []
  | _ :: _ => [Render (header_of statementResult withoutHeader) formatted]
  end.

(** A statement without error, with a row channel, which has no column or
    whose rows are all good and formatted as [formatted]. *)
Definition printable (statementResult : StatementResult)
    (formatted : list (list string)) : Prop :=
  Err statementResult = None
  /\ exists rows,
      RowCh statementResult = Some rows
      /\ (ColumnNames statementResult = [] \/ Forall2 formats_to rows formatted).

Definition all_rendered (withoutHeader : bool)
    (statements : list StatementResult) (tables : list (list (list string)))
  : list event :=
  flat_map (fun p => rendered withoutHeader (fst p) (snd p))
           (combine statements tables).

(** A statement stream that yields no row stream: a nil channel, a
    channel closed before any statement, or a first statement without
    error whose row channel is nil. *)
Definition no_row_stream (statementsResult : StatementsResult) : Prop :=
  match StatementResultCh statementsResult with
  | None => True
  | Some [] => True
  | Some (statementResult :: _) =>
      Err statementResult = None /\ RowCh statementResult = None
  end.

(** A database whose enumeration query fails. *)
Definition broken_config : DbCmdConfig :=
  mkDbCmdConfig (fun _ => Fail (Upstream "database is locked")).

(** A database whose statement streams are closed before any statement. *)
Definition silent_config : DbCmdConfig :=
  mkDbCmdConfig (fun _ => Done (mkStatementsResult (Some []))).

(** A database without table. *)
Definition empty_config : DbCmdConfig :=
  mkDbCmdConfig (fun _ => one_statement ["name"] []).

(** A database whose table [t] has a second data row that carries an
    error, and whose schema query for [s] returns a row of three
    columns. *)
Definition failing_records_config : DbCmdConfig :=
  mkDbCmdConfig (fun sql =>
    if String.eqb sql (schema_sql "t") then
      one_statement ["type"; "sql || ';'"]
        [text_row ["table"; "CREATE TABLE t (a);"];
         text_row ["index"; "CREATE INDEX i ON t (a);"]]
    else if String.eqb sql (schema_sql "s") then
      one_statement ["type"; "sql || ';'"; "name"]
        [text_row ["table"; "CREATE TABLE s (a);"; "s"]]
    else
      one_statement ["a"]
        [mkRowResult [Some (VInt KInt64 1)] None;
         mkRowResult [] (Some (Upstream "disk I/O error"));
         mkRowResult [Some (VInt KInt64 3)] None]).

(** The database of the examples, whose enumeration query returns a row
    without column between the names of [u] and [t]. *)
Definition columnless_config : DbCmdConfig :=
  mkDbCmdConfig (fun sql =>
    if String.eqb sql table_names_sql then
      one_statement ["name"]
        [text_row ["u"]; mkRowResult [] None; text_row ["t"]]
    else demo_db sql).

(** * Properties *)

(** ** The value formatter *)

Lemma formatValue_struct name fields :
  formatValue (Some (VStruct name fields)) = formatStruct (VStruct name fields).
Proof. reflexivity. Qed.

Lemma formatValue_map strkey m :
  formatValue (Some (VMap strkey m)) = formatMap (VMap strkey m).
Proof. reflexivity. Qed.

Example formatData_of_a_row :
  formatData [Some (VInt KInt64 (-12)); None; Some (VBool true);
              Some (VSlice "" Uint8 [Byte.xff; Byte.x0a]);
              Some (VStruct "NullString"
                      [("String", VString "o'clock"); ("Valid", VBool true)]);
              Some (VStruct "NullTime"
                      [("Time", VTime (mkTime 2024 3 5 7 8 9));
                       ("Valid", VBool true)]);
              base64_map_boxed "AAEC/w"]
  = Done ["-12"; "NULL"; "true"; "0xFF0A"; "o'clock"; "2024-03-05 07:08:09";
          "0x000102FF"].
Proof. reflexivity. Qed.

Example formatData_stops_at_the_first_error :
  formatData [Some (VInt KInt64 1); Some (VOther Pointer);
              Some (VSlice "" Int [])]
  = Fail (Errorf "unsupported type: ptr").
Proof. reflexivity. Qed.

(** C6: a nullable wrapper (a struct with a boolean [Valid] field) whose
    validity flag is false is formatted as ["NULL"], whatever its type name
    and its other fields. *)
Theorem invalid_wrapper_formats_as_NULL (name : string)
    (fields : list (string * value)) :
  lookup_field "Valid" fields = VBool false ->
  formatValue (Some (VStruct name fields)) = Done "NULL".
Proof.
  intros HValid. rewrite formatValue_struct. unfold formatStruct. simpl.
  rewrite HValid. reflexivity.
Qed.

(** A [NullTime] without its [Time] field would panic if unwrapped; a
    wrapper of an unknown type would be an error. *)
Lemma invalid_wrapper_formats_as_NULL_witness :
  formatValue (Some (VStruct "NullTime" [("Valid", VBool false)])) = Done "NULL"
  /\ formatValue (Some (VStruct "NullUint64"
                          [("Uint64", VInt KUint64 7); ("Valid", VBool false)]))
     = Done "NULL".
Proof.
  split; apply invalid_wrapper_formats_as_NULL; reflexivity.
Defined.

Lemma unwrapped_NullTime_without_Time_panics :
  formatValue (Some (VStruct "NullTime" [("Valid", VBool true)]))
  = Panic "reflect: call of reflect.Value.Interface on zero Value".
Proof. reflexivity. Qed.

(** C7, as stated, fails: a wrapper of an unrecognized type whose validity
    flag is false is formatted as ["NULL"], not refused. *)
Lemma unrecognized_invalid_wrapper_is_not_an_error :
  let fields := [("Uint64", VInt KUint64 7); ("Valid", VBool false)] in
  lookup_field "Valid" fields = VBool false
  /\ recognized_wrapper "NullUint64" = false
  /\ ~ is_FormatError (formatValue (Some (VStruct "NullUint64" fields))).
Proof.
  simpl. split; [reflexivity | split; [reflexivity |]].
  intros [e He]. vm_compute in He. discriminate He.
Qed.

Lemma recognized_wrapper_false name :
  recognized_wrapper name = false ->
  String.eqb name "NullBool" = false /\ String.eqb name "NullFloat64" = false
  /\ String.eqb name "NullByte" = false /\ String.eqb name "NullInt16" = false
  /\ String.eqb name "NullInt32" = false /\ String.eqb name "NullInt64" = false
  /\ String.eqb name "NullString" = false /\ String.eqb name "NullTime" = false.
Proof.
  unfold recognized_wrapper, recognized_wrappers. simpl. intros H.
  repeat match type of H with
         | (_ || _)%bool = false =>
             apply Bool.orb_false_iff in H; destruct H as [? H]
         end.
  repeat split; assumption.
Qed.

(** C7, amended: a nullable wrapper whose validity flag is true and whose
    type name is not one of the eight recognized ones is a format error
    that names the type. *)
Theorem unrecognized_valid_wrapper_is_an_error (name : string)
    (fields : list (string * value)) :
  lookup_field "Valid" fields = VBool true ->
  recognized_wrapper name = false ->
  formatValue (Some (VStruct name fields))
  = Fail (Errorf ("unsupported struct type: " +:+ name)).
Proof.
  intros HValid Hname. rewrite formatValue_struct. unfold formatStruct. simpl.
  rewrite HValid. simpl.
  destruct (recognized_wrapper_false name Hname)
    as (H1 & H2 & H3 & H4 & H5 & H6 & H7 & H8).
  rewrite H1, H2, H3, H4, H5, H6, H7, H8. reflexivity.
Qed.

Lemma unrecognized_valid_wrapper_is_an_error_witness :
  formatValue (Some (VStruct "NullUint64"
                       [("Uint64", VInt KUint64 7); ("Valid", VBool true)]))
  = Fail (Errorf "unsupported struct type: NullUint64").
Proof.
  apply (unrecognized_valid_wrapper_is_an_error "NullUint64"); reflexivity.
Defined.

(** ** Maps with a base64 entry *)

(** C4, at the failing input: for a map without a ["base64"] entry (here
    the empty [map[string]interface{}]) [MapIndex] returns the zero
    [Value], on which [IsZero] panics; no format error is returned. *)
Theorem formatMap_without_base64_entry_panics :
  formatValue (Some (VMap true ∅))
  = Panic "reflect: call of reflect.Value.IsZero on zero Value"
  /\ ~ is_FormatError (formatValue (Some (VMap true ∅))).
Proof.
  split; [reflexivity |]. intros [e He]. vm_compute in He. discriminate He.
Qed.

(** X11: every map with string keys that has no ["base64"] entry makes
    the formatter panic: [IsZero] is called on the zero [Value] that
    [MapIndex] returns for the missing key. *)
Lemma formatMap_absent_entry_panics (m : gmap string elem) :
  m !! "base64" = None ->
  formatValue (Some (VMap true m))
  = Panic "reflect: call of reflect.Value.IsZero on zero Value".
Proof.
  intros Hm. rewrite formatValue_map. unfold formatMap, MapIndex. simpl.
  rewrite Hm. reflexivity.
Qed.


(** ** Base64 maps and byte sequences *)

(** C5, at two failing inputs. The empty text is the base64 encoding of
    the empty byte sequence, which is formatted as ["0x"]; held directly as
    a string in the map it counts as missing, since [IsZero] is true of the
    empty string. The text ["AA"] followed by a line feed is decoded
    without error to the single byte [00], since the decoder skips line
    feeds, but the whole buffer of [DecodedLen(3) = 2] bytes is formatted:
    the result is neither the text of the decoded bytes nor an error. *)
Theorem base64_map_is_not_formatted_as_its_bytes :
  (EncodeToString [] = ""
   /\ formatValue (byte_slice []) = Done "0x"
   /\ formatValue (base64_map_unboxed "")
      = Fail (Errorf ("unsupported map: no " +:+ dquote +:+ "base64" +:+ dquote
                      +:+ " field")))
  /\ (Decode [Byte.x00; Byte.x00] AA_newline = Done ([Byte.x00; Byte.x00], 1)
      /\ formatValue (byte_slice [Byte.x00]) = Done "0x00"
      /\ formatValue (base64_map_boxed AA_newline) = Done "0x0000"
      /\ formatValue (base64_map_unboxed AA_newline) = Done "0x0000").
Proof. repeat split; reflexivity. Qed.

(** The part of C5 that holds. *)

Lemma byte_to_Z_land (b : Byte.byte) : Z.land (byte_to_Z b) 255 = byte_to_Z b.
Proof. destruct b; reflexivity. Qed.

Lemma byte_of_to_Z (b : Byte.byte) : byte_of_Z (byte_to_Z b) = b.
Proof. destruct b; reflexivity. Qed.

Lemma byte_of_Z_land (x : Z) (b : Byte.byte) :
  Z.land x 255 = byte_to_Z b -> byte_of_Z x = b.
Proof.
  intros H. rewrite <- (byte_of_to_Z b). unfold byte_of_Z.
  rewrite H, byte_to_Z_land. reflexivity.
Qed.

Lemma sextet_range (x : Z) : 0 <= Z.land x 63 < 64.
Proof.
  change 63 with (Z.ones 6). rewrite Z.land_ones by lia.
  apply Z.mod_pos_bound. reflexivity.
Qed.

Lemma decodeMap_encode (i : Z) : 0 <= i < 64 -> decodeMap (encode i) = Some i.
Proof.
  intros H. assert (exists n : nat, (n < 64)%nat /\ i = Z.of_nat n) as (n & Hn & ->).
  { exists (Z.to_nat i). split; lia. }
  clear H. do 64 (destruct n as [| n]; [reflexivity |]). lia.
Qed.

Lemma full_quantum (v : Z) (k : Z) :
  k = 0 \/ k = 8 \/ k = 16 ->
  Z.land (Z.shiftr (Z.lor (Z.lor (Z.lor (Z.shiftl (Z.land (Z.shiftr v 18) 63) 18)
                                        (Z.shiftl (Z.land (Z.shiftr v 12) 63) 12))
                                 (Z.shiftl (Z.land (Z.shiftr v 6) 63) 6))
                          (Z.land v 63)) k) 255
  = Z.land (Z.shiftr v k) 255.
Proof.
  intros Hk. change 63 with (Z.ones 6). change 255 with (Z.ones 8).
  destruct Hk as [-> | [-> | ->]]; Z.bitblast.
Qed.

Lemma three_sextets (v : Z) (k : Z) :
  k = 8 \/ k = 16 ->
  Z.land (Z.shiftr (Z.lor (Z.lor (Z.lor (Z.shiftl (Z.land (Z.shiftr v 18) 63) 18)
                                        (Z.shiftl (Z.land (Z.shiftr v 12) 63) 12))
                                 (Z.shiftl (Z.land (Z.shiftr v 6) 63) 6))
                          0) k) 255
  = Z.land (Z.shiftr v k) 255.
Proof.
  intros Hk. change 63 with (Z.ones 6). change 255 with (Z.ones 8).
  destruct Hk as [-> | ->]; Z.bitblast.
Qed.

Lemma two_sextets (v : Z) :
  Z.land (Z.shiftr (Z.lor (Z.lor (Z.lor (Z.shiftl (Z.land (Z.shiftr v 18) 63) 18)
                                        (Z.shiftl (Z.land (Z.shiftr v 12) 63) 12))
                                 (Z.shiftl 0 6))
                          0) 16) 255
  = Z.land (Z.shiftr v 16) 255.
Proof.
  change 63 with (Z.ones 6). change 255 with (Z.ones 8). Z.bitblast.
Qed.

Lemma bytes_of_val (a b c : Z) :
  let v := Z.lor (Z.lor (Z.shiftl (Z.land a 255) 16) (Z.shiftl (Z.land b 255) 8))
                 (Z.land c 255) in
  Z.land (Z.shiftr v 16) 255 = Z.land a 255
  /\ Z.land (Z.shiftr v 8) 255 = Z.land b 255
  /\ Z.land (Z.shiftr v 0) 255 = Z.land c 255.
Proof.
  cbv zeta. change 255 with (Z.ones 8). repeat split; Z.bitblast.
Qed.

Lemma bytes_of_val2 (a b : Z) :
  let v := Z.lor (Z.shiftl (Z.land a 255) 16) (Z.shiftl (Z.land b 255) 8) in
  Z.land (Z.shiftr v 16) 255 = Z.land a 255
  /\ Z.land (Z.shiftr v 8) 255 = Z.land b 255.
Proof.
  cbv zeta. change 255 with (Z.ones 8). repeat split; Z.bitblast.
Qed.

Lemma bytes_of_val1 (a : Z) :
  Z.land (Z.shiftr (Z.shiftl (Z.land a 255) 16) 16) 255 = Z.land a 255.
Proof. change 255 with (Z.ones 8). Z.bitblast. Qed.

Lemma list_ind3 {A} (P : list A -> Prop) :
  P [] -> (forall a, P [a]) -> (forall a b, P [a; b]) ->
  (forall a b c l, P l -> P (a :: b :: c :: l)) ->
  forall l, P l.
Proof.
  intros H0 H1 H2 H3.
  enough (forall l, P l /\ (forall a, P (a :: l)) /\ (forall a b, P (a :: b :: l)))
    as H by (intros l; apply H).
  induction l as [| x l (IH0 & IH1 & IH2)]; repeat split; auto.
Qed.

Lemma decode_quanta_sextet (x : Z) (rest : list ascii) (si : Z) (q : list Z) :
  decode_quanta (encode (Z.land x 63) :: rest) si q
  = if (length (q ++ [Z.land x 63]) =? 4)%nat
    then obind (decode_quanta rest (si + 1) [])
               (fun tail => Done (quantum_bytes (q ++ [Z.land x 63]) ++ tail))
    else decode_quanta rest (si + 1) (q ++ [Z.land x 63]).
Proof.
  cbn [decode_quanta]. rewrite decodeMap_encode by apply sextet_range.
  reflexivity.
Qed.

Lemma quantum_bytes_full (a b c : Byte.byte) :
  let val := Z.lor (Z.lor (Z.shiftl (byte_to_Z a) 16) (Z.shiftl (byte_to_Z b) 8))
                   (byte_to_Z c) in
  quantum_bytes [Z.land (Z.shiftr val 18) 63; Z.land (Z.shiftr val 12) 63;
                 Z.land (Z.shiftr val 6) 63; Z.land val 63]
  = [a; b; c].
Proof.
  cbv zeta. unfold quantum_bytes. cbn [nth length Nat.sub take].
  pose proof (bytes_of_val (byte_to_Z a) (byte_to_Z b) (byte_to_Z c)) as H.
  cbv zeta in H. rewrite !byte_to_Z_land in H. destruct H as (Ha & Hb & Hc).
  f_equal; [| f_equal; [| f_equal]]; apply byte_of_Z_land.
  - rewrite full_quantum by auto. exact Ha.
  - rewrite full_quantum by auto. exact Hb.
  - match goal with |- Z.land ?v 255 = _ => change v with (Z.shiftr v 0) end.
    rewrite full_quantum by auto. exact Hc.
Qed.

Lemma quantum_bytes_two (a b : Byte.byte) :
  let val := Z.lor (Z.shiftl (byte_to_Z a) 16) (Z.shiftl (byte_to_Z b) 8) in
  quantum_bytes [Z.land (Z.shiftr val 18) 63; Z.land (Z.shiftr val 12) 63;
                 Z.land (Z.shiftr val 6) 63]
  = [a; b].
Proof.
  cbv zeta. unfold quantum_bytes. cbn [nth length Nat.sub take].
  pose proof (bytes_of_val2 (byte_to_Z a) (byte_to_Z b)) as H.
  cbv zeta in H. rewrite !byte_to_Z_land in H. destruct H as (Ha & Hb).
  f_equal; [| f_equal]; apply byte_of_Z_land.
  - rewrite three_sextets by auto. exact Ha.
  - rewrite three_sextets by auto. exact Hb.
Qed.

Lemma quantum_bytes_one (a : Byte.byte) :
  let val := Z.shiftl (byte_to_Z a) 16 in
  quantum_bytes [Z.land (Z.shiftr val 18) 63; Z.land (Z.shiftr val 12) 63]
  = [a].
Proof.
  cbv zeta. unfold quantum_bytes. cbn [nth length Nat.sub take].
  pose proof (bytes_of_val1 (byte_to_Z a)) as H.
  rewrite !byte_to_Z_land in H.
  f_equal. apply byte_of_Z_land. rewrite two_sextets. exact H.
Qed.

(** Decoding inverts encoding. *)
Lemma decode_quanta_Encode (b : list Byte.byte) :
  forall si, decode_quanta (Encode b) si [] = Done b.
Proof.
  induction b as [| a | a a' | a a' a'' rest IH] using list_ind3; intros si.
  - reflexivity.
  - cbn [Encode]. rewrite !decode_quanta_sextet. cbn [app length Nat.eqb].
    cbn [decode_quanta]. apply f_equal, quantum_bytes_one.
  - cbn [Encode]. rewrite !decode_quanta_sextet. cbn [app length Nat.eqb].
    cbn [decode_quanta]. apply f_equal, quantum_bytes_two.
  - cbn [Encode]. rewrite !decode_quanta_sextet. cbn [app length Nat.eqb].
    rewrite IH. cbn [obind]. rewrite quantum_bytes_full. reflexivity.
Qed.

Lemma DecodedLen_Encode (b : list Byte.byte) :
  DecodedLen (Z.of_nat (length (Encode b))) = Z.of_nat (length b).
Proof.
  induction b as [| a | a a' | a a' a'' rest IH] using list_ind3;
    try reflexivity.
  cbn [Encode length]. unfold DecodedLen in *.
  rewrite !Nat2Z.inj_succ, <- IH.
  replace (Z.succ (Z.succ (Z.succ (Z.succ (Z.of_nat (length (Encode rest)))))) * 6)
    with (Z.of_nat (length (Encode rest)) * 6 + 3 * 8) by lia.
  rewrite Z.div_add by lia. lia.
Qed.

Lemma length_EncodeToString (b : list Byte.byte) :
  String.length (EncodeToString b) = length (Encode b).
Proof.
  unfold EncodeToString. induction (Encode b) as [| c l IH]; simpl; congruence.
Qed.

Lemma decodeBase64ToHex_EncodeToString (b : list Byte.byte) :
  decodeBase64ToHex (EncodeToString b) = Done (formatBytes b).
Proof.
  unfold decodeBase64ToHex, Decode, EncodeToString.
  rewrite list_ascii_of_string_of_list_ascii, decode_quanta_Encode.
  cbn [obind]. rewrite drop_ge, app_nil_r; [reflexivity |].
  rewrite repeat_length.
  change (string_of_list_ascii (Encode b)) with (EncodeToString b).
  rewrite length_EncodeToString, DecodedLen_Encode. lia.
Qed.

Lemma EncodeToString_nonempty (b : list Byte.byte) :
  b <> [] -> String.eqb (EncodeToString b) "" = false.
Proof.
  destruct b as [| a [| a' [| a'' rest]]]; [congruence | reflexivity .. ].
Qed.

(** X6: for the base64 text of a byte sequence, the map is formatted as
    the bytes are when the text is boxed in an interface, or held directly
    and not empty. *)
Lemma encoded_map_formats_as_bytes (b : list Byte.byte) :
  formatValue (byte_slice b) = Done (formatBytes b)
  /\ formatValue (base64_map_boxed (EncodeToString b)) = Done (formatBytes b)
  /\ (b <> [] ->
      formatValue (base64_map_unboxed (EncodeToString b)) = Done (formatBytes b)).
Proof.
  split; [reflexivity | split].
  - unfold base64_map_boxed. rewrite formatValue_map.
    unfold formatMap, MapIndex. rewrite lookup_singleton_eq. cbn [obind IsZero].
    apply decodeBase64ToHex_EncodeToString.
  - intros Hb. unfold base64_map_unboxed. rewrite formatValue_map.
    unfold formatMap, MapIndex. rewrite lookup_singleton_eq. cbn [obind IsZero].
    rewrite (EncodeToString_nonempty b Hb).
    apply decodeBase64ToHex_EncodeToString.
Qed.

Lemma decode_quanta_corrupt (src : list ascii) :
  existsb corrupt_char src = true ->
  forall si q, exists offset,
    decode_quanta src si q = Fail (CorruptInputError offset).
Proof.
  induction src as [| c rest IH]; intros H si q; [discriminate |].
  cbn [existsb] in H. cbn [decode_quanta]. unfold corrupt_char in H at 1.
  destruct (decodeMap c) as [out |].
  - cbn [orb] in H.
    destruct (length (q ++ [out]) =? 4)%nat.
    + destruct (IH H (si + 1) []) as [offset ->]. eexists. reflexivity.
    + apply IH, H.
  - destruct (Ascii.eqb c "010" || Ascii.eqb c "013")%bool.
    + apply IH, H.
    + eexists. reflexivity.
Qed.

(** X7: a base64 text that holds a character outside the alphabet,
    other than a line feed or a carriage return, is a decode error joined
    to its context message, and no text is returned. *)
Lemma corrupt_base64_is_an_error (s : string) :
  existsb corrupt_char (list_ascii_of_string s) = true ->
  exists offset,
    formatValue (base64_map_boxed s)
    = Fail (ErrorsJoin (ErrorsNew "unable to decode base64 value")
                       (CorruptInputError offset))
    /\ formatValue (base64_map_unboxed s)
       = Fail (ErrorsJoin (ErrorsNew "unable to decode base64 value")
                          (CorruptInputError offset)).
Proof.
  intros H. destruct (decode_quanta_corrupt _ H 0 []) as [offset Hd].
  exists offset.
  assert (decodeBase64ToHex s
          = Fail (ErrorsJoin (ErrorsNew "unable to decode base64 value")
                             (CorruptInputError offset))) as Hhex.
  { unfold decodeBase64ToHex, Decode. rewrite Hd. reflexivity. }
  unfold base64_map_boxed, base64_map_unboxed. rewrite !formatValue_map.
  unfold formatMap, MapIndex. rewrite !lookup_singleton_eq. cbn [obind IsZero].
  split; [exact Hhex |].
  destruct s as [| c s]; [discriminate H | exact Hhex].
Qed.

(** ** Printing a statement result *)

Lemma bind_emit {A} (e : event) (k : io A) :
  (emit e >> k) = (e :: fst k, snd k).
Proof. unfold bind, emit. destruct k. reflexivity. Qed.

Lemma bind_ret {A B} (a : A) (f : A -> io B) : bind (ret a) f = f a.
Proof. unfold bind, ret. destruct (f a). reflexivity. Qed.

Lemma bind_lift_Done {A B} (a : A) (f : A -> io B) :
  bind (lift (Done a)) f = f a.
Proof. apply bind_ret. Qed.

Lemma bind_lift_Fail {A B} (e : error) (f : A -> io B) :
  bind (lift (Fail e)) f = ([], Fail e).
Proof. reflexivity. Qed.

Lemma bind_return_error_None {B} (f : unit -> io B) :
  bind (return_error None) f = f tt.
Proof. apply bind_ret. Qed.

Lemma bind_return_error_Some {B} (e : error) (f : unit -> io B) :
  bind (return_error (Some e)) f = ([], Fail e).
Proof. reflexivity. Qed.

Lemma bind_fst_snd {A B} (m : io A) (f : A -> io B) (a : A) :
  snd m = Done a ->
  bind m f = (fst m ++ fst (f a), snd (f a)).
Proof.
  destruct m as [t r]. simpl. intros ->. unfold bind. destruct (f a).
  reflexivity.
Qed.

Lemma bind_assoc {A B C} (m : io A) (f : A -> io B) (g : B -> io C) :
  bind (bind m f) g = bind m (fun x => bind (f x) g).
Proof.
  destruct m as [t [a | e | msg |]]; try reflexivity.
  unfold bind at 2 3. destruct (f a) as [t' [b | e | msg |]]; try reflexivity.
  unfold bind. destruct (g b) as [t'' r]. rewrite app_assoc. reflexivity.
Qed.

Lemma bind_fails {A B} (m : io A) (f : A -> io B) (e : error) :
  snd m = Fail e -> bind m f = (fst m, Fail e).
Proof. destruct m as [t r]. simpl. intros ->. reflexivity. Qed.

Lemma written_app (t1 t2 : list event) :
  written (t1 ++ t2) = written t1 ++ written t2.
Proof. unfold written. apply List.filter_app. Qed.

Lemma written_repeat_Recv (c : chan) (n : nat) :
  written (repeat (Recv c) n) = [].
Proof. induction n; simpl; auto. Qed.

(** The loop over the rows stops at the first failing row: it has
    received the rows up to that one and rendered nothing. *)
Lemma PrintStatementResult_rows_fails pre bad post e header table :
  Forall good_row pre ->
  row_fails bad e ->
  PrintStatementResult_rows (pre ++ bad :: post) header table
  = (repeat (Recv (RowsOf ShellQuery)) (S (length pre)), Fail e).
Proof.
  intros Hpre Hbad. revert table.
  induction Hpre as [| r pre [f [Hr Hf]] _ IH]; intros table;
    cbn [PrintStatementResult_rows app length repeat].
  - rewrite bind_emit.
    destruct Hbad as [Herr | [Herr Hfmt]]; rewrite Herr.
    + rewrite bind_return_error_Some. reflexivity.
    + rewrite bind_return_error_None, Hfmt, bind_lift_Fail. reflexivity.
  - rewrite bind_emit, Hr, bind_return_error_None, Hf, bind_lift_Done, IH.
    reflexivity.
Qed.

(** When every row is good the table is rendered once, after the channel
    is found closed. *)
Lemma PrintStatementResult_rows_done rows formatted header table :
  Forall2 formats_to rows formatted ->
  PrintStatementResult_rows rows header table
  = (repeat (Recv (RowsOf ShellQuery)) (length rows)
     ++ [Closed (RowsOf ShellQuery); Render header (table ++ formatted)],
     Done tt).
Proof.
  intros H. revert table.
  induction H as [| r f rows formatted [Hr Hf] _ IH]; intros table;
    cbn [PrintStatementResult_rows app length repeat].
  - rewrite app_nil_r. reflexivity.
  - rewrite bind_emit, Hr, bind_return_error_None, Hf, bind_lift_Done, IH.
    rewrite <- app_assoc. reflexivity.
Qed.

Lemma PrintStatementResult_unfold statementResult withoutHeader rows :
  RowCh statementResult = Some rows ->
  ColumnNames statementResult <> [] ->
  PrintStatementResult statementResult withoutHeader
  = PrintStatementResult_rows rows (header_of statementResult withoutHeader) [].
Proof.
  intros Hch Hcols. unfold PrintStatementResult, header_of. rewrite Hch.
  destruct (ColumnNames statementResult); [congruence | reflexivity].
Qed.

(** C8, as stated, fails: the zero [StatementResult] has no column name
    and a nil row channel, and printing it is an error. *)
Lemma zero_column_result_without_channel_is_an_error :
  ColumnNames zero_StatementResult = []
  /\ PrintStatementResult zero_StatementResult false
     = ([], Fail UnableToPrintStatementResult).
Proof. split; reflexivity. Qed.

(** C8, amended: for a statement result that has a row channel and no
    column name, [PrintStatementResult] performs nothing (it writes
    nothing and reads no row) and returns no error. *)
Theorem zero_column_result_prints_nothing (statementResult : StatementResult)
    (withoutHeader : bool) :
  ColumnNames statementResult = [] ->
  is_Some (RowCh statementResult) ->
  PrintStatementResult statementResult withoutHeader = ([], Done tt).
Proof.
  intros Hcols [rows Hch]. unfold PrintStatementResult.
  rewrite Hch, Hcols. reflexivity.
Qed.

Lemma zero_column_result_prints_nothing_witness :
  PrintStatementResult
    (mkStatementResult [] (Some [mkRowResult [] (Some (Upstream "x"))]) None)
    false
  = ([], Done tt).
Proof.
  apply zero_column_result_prints_nothing; [reflexivity | eexists; reflexivity].
Defined.

(** C10, as stated, fails: when there is no column name the row stream is
    not read, and the error that one of its rows carries is not returned. *)
Lemma row_error_of_zero_column_result_is_not_returned :
  let bad := mkRowResult [] (Some (Upstream "constraint failed")) in
  let statementResult := mkStatementResult [] (Some [bad]) None in
  row_fails bad (Upstream "constraint failed")
  /\ snd (PrintStatementResult statementResult false)
     <> Fail (Upstream "constraint failed").
Proof.
  simpl. split; [left; reflexivity | discriminate].
Qed.

(** C10, amended: for a statement result with a row channel and at least
    one column name, if a row of the stream fails (it carries an error, or
    one of its values fails formatting) after rows that are all good,
    [PrintStatementResult] returns that first error and has written
    nothing; and when all rows are good the table is rendered once, after
    the whole stream is consumed. *)
Theorem failed_print_writes_nothing (statementResult : StatementResult)
    (withoutHeader : bool) :
  ColumnNames statementResult <> [] ->
  (forall pre bad post e,
      RowCh statementResult = Some (pre ++ bad :: post) ->
      Forall good_row pre ->
      row_fails bad e ->
      snd (PrintStatementResult statementResult withoutHeader) = Fail e
      /\ written (fst (PrintStatementResult statementResult withoutHeader)) = [])
  /\ (forall rows formatted,
      RowCh statementResult = Some rows ->
      Forall2 formats_to rows formatted ->
      PrintStatementResult statementResult withoutHeader
      = (repeat (Recv (RowsOf ShellQuery)) (length rows)
         ++ [Closed (RowsOf ShellQuery);
             Render (header_of statementResult withoutHeader) formatted],
         Done tt)).
Proof.
  intros Hcols. split.
  - intros pre bad post e Hch Hpre Hbad.
    rewrite (PrintStatementResult_unfold _ _ _ Hch Hcols).
    rewrite (PrintStatementResult_rows_fails _ _ _ _ _ _ Hpre Hbad).
    split; [reflexivity |]. apply written_repeat_Recv.
  - intros rows formatted Hch Hrows.
    rewrite (PrintStatementResult_unfold _ _ _ Hch Hcols).
    apply (PrintStatementResult_rows_done _ _ _ [] Hrows).
Qed.

Lemma failed_print_writes_nothing_witness :
  let good := mkRowResult [Some (VInt KInt64 1)] None in
  let bad := mkRowResult [Some (VOther Pointer)] None in
  let statementResult := mkStatementResult ["a"] (Some [good; bad; good]) None in
  snd (PrintStatementResult statementResult false)
  = Fail (Errorf "unsupported type: ptr")
  /\ written (fst (PrintStatementResult statementResult false)) = [].
Proof.
  simpl.
  refine (proj1 (failed_print_writes_nothing
                   (mkStatementResult ["a"]
                      (Some [mkRowResult [Some (VInt KInt64 1)] None;
                             mkRowResult [Some (VOther Pointer)] None;
                             mkRowResult [Some (VInt KInt64 1)] None]) None)
                   false _)
                [mkRowResult [Some (VInt KInt64 1)] None]
                (mkRowResult [Some (VOther Pointer)] None)
                [mkRowResult [Some (VInt KInt64 1)] None]
                (Errorf "unsupported type: ptr") _ _ _).
  - discriminate.
  - reflexivity.
  - constructor; [| constructor]. exists ["1"]. split; reflexivity.
  - right. split; reflexivity.
Defined.


(** ** The dump *)

Section DumpProperties.

Context `{db : DbPackage}.

Lemma getTableSchema_rows_done tableName err rows ksqls createTable otherStmts :
  Forall2 schema_row_is rows ksqls ->
  getTableSchema_rows tableName err rows createTable otherStmts
  = (repeat (Recv (RowsOf (SchemaQuery tableName))) (length rows)
     ++ [Closed (RowsOf (SchemaQuery tableName))],
     Done (create_of ksqls createTable, otherStmts ++ aux_of ksqls)).
Proof.
  intros H. revert createTable otherStmts.
  induction H as [| r [kind sql] rows ksqls [Hr Hf] _ IH];
    intros createTable otherStmts;
    cbn [getTableSchema_rows length repeat app].
  - unfold aux_of. simpl. rewrite app_nil_r. reflexivity.
  - rewrite bind_emit, Hr, Hf. cbn [fst snd].
    unfold create_of, aux_of, not_table.
    cbn [fold_left List.filter fst snd].
    destruct (String.eqb kind "table"); rewrite IH; cbn [negb map fst snd].
    + reflexivity.
    + rewrite <- app_assoc. reflexivity.
Qed.

Lemma ExecuteStatements_Done {B} config sql statementsResult (k : StatementsResult -> io B) :
  Db_ExecuteStatements config sql = Done statementsResult ->
  bind (ExecuteStatements config sql) k
  = (Exec sql :: fst (k statementsResult), snd (k statementsResult)).
Proof.
  intros H. unfold ExecuteStatements. rewrite H.
  unfold bind, emit, lift. simpl. destruct (k statementsResult). reflexivity.
Qed.

Lemma receive_statement_first {B} q statementResult more
    (k : StatementResult -> io B) :
  bind (receive_statement q (Some (statementResult :: more))) k
  = (Recv (StatementsOf q) :: fst (k statementResult),
     snd (k statementResult)).
Proof.
  unfold receive_statement, bind, emit, ret. simpl.
  destruct (k statementResult). reflexivity.
Qed.

Lemma getTableSchema_done config tableName rows ksqls :
  answers config (schema_sql (EscapeSingleQuotes tableName)) rows ->
  Forall2 schema_row_is rows ksqls ->
  getTableSchema config tableName
  = (Exec (schema_sql (EscapeSingleQuotes tableName))
     :: Recv (StatementsOf (SchemaQuery tableName))
     :: repeat (Recv (RowsOf (SchemaQuery tableName))) (length rows)
     ++ [Closed (RowsOf (SchemaQuery tableName))],
     Done (create_of ksqls "", aux_of ksqls)).
Proof.
  intros (sres & sr & more & Hdb & Hch & Herr & Hrows) H.
  unfold getTableSchema.
  rewrite (ExecuteStatements_Done _ _ _ _ Hdb), Hch, receive_statement_first.
  rewrite Herr, bind_return_error_None, Hrows.
  rewrite (getTableSchema_rows_done _ _ _ _ _ _ H). reflexivity.
Qed.

Lemma getTableRecords_done config tableName :
  forall statementsResult statementResult more,
    Db_ExecuteStatements config (records_sql (EscapeSingleQuotes tableName))
    = Done statementsResult ->
    StatementResultCh statementsResult = Some (statementResult :: more) ->
    Err statementResult = None ->
    getTableRecords config tableName
    = ([Exec (records_sql (EscapeSingleQuotes tableName));
        Recv (StatementsOf (RecordsQuery tableName))],
       Done statementResult).
Proof.
  intros sres sr more Hdb Hch Herr. unfold getTableRecords.
  rewrite (ExecuteStatements_Done _ _ _ _ Hdb), Hch, receive_statement_first.
  rewrite Herr, bind_return_error_None. reflexivity.
Qed.

Lemma dumpTableRecords_rows_done rows formatted tableName :
  Forall2 record_row_is rows formatted ->
  dumpTableRecords_rows rows tableName
  = (record_events tableName formatted
     ++ [Closed (RowsOf (RecordsQuery tableName))], Done tt).
Proof.
  induction 1 as [| r f rows formatted [Hr Hf] _ IH];
    cbn [dumpTableRecords_rows]; [reflexivity |].
  rewrite bind_emit, Hr, bind_return_error_None, Hf, bind_lift_Done.
  rewrite bind_emit, IH. reflexivity.
Qed.

Lemma lines_app t1 t2 : lines (t1 ++ t2) = lines t1 ++ lines t2.
Proof.
  induction t1 as [| e t1 IH]; [reflexivity |].
  destruct e; simpl; rewrite IH; reflexivity.
Qed.

Lemma lines_repeat_Recv c n : lines (repeat (Recv c) n) = [].
Proof. induction n; simpl; auto. Qed.

Lemma lines_record_events tableName formatted :
  lines (record_events tableName formatted)
  = map (insertStatement tableName) formatted.
Proof.
  induction formatted as [| f formatted IH]; [reflexivity |].
  unfold record_events in *. simpl. rewrite IH. reflexivity.
Qed.

(** The statements after the data, printed in order. *)
Lemma print_otherStmts (otherStmts : list string) :
  fold_right (fun stmt k => emit (Println stmt) >> k) (ret tt) otherStmts
  = (map Println otherStmts, Done tt).
Proof.
  induction otherStmts as [| stmt rest IH]; [reflexivity |].
  cbn [fold_right map]. rewrite bind_emit, IH. reflexivity.
Qed.

Lemma lines_map_Println (l : list string) : lines (map Println l) = l.
Proof. induction l; simpl; congruence. Qed.

Lemma dumpTable_done config row name ksqls formatted :
  table_dump config row name ksqls formatted ->
  dumpTable config row = (table_events name ksqls formatted, Done tt).
Proof.
  intros ([rest Hname] & (srows & Hschema & Hsrows)
          & (rrows & (sres & sr & more & Hdb & Hch & Herr & Hrows) & Hrrows)).
  unfold dumpTable. rewrite Hname, bind_lift_Done.
  rewrite (bind_fst_snd _ _ _
             (f_equal snd (getTableSchema_done _ _ _ _ Hschema Hsrows))).
  rewrite (getTableSchema_done _ _ _ _ Hschema Hsrows). cbn [fst snd].
  rewrite bind_emit.
  rewrite (bind_fst_snd _ _ _
             (f_equal snd (getTableRecords_done _ _ _ _ _ Hdb Hch Herr))).
  rewrite (getTableRecords_done _ _ _ _ _ Hdb Hch Herr). cbn [fst snd].
  unfold dumpTableRecords. rewrite Hrows.
  rewrite (dumpTableRecords_rows_done _ _ _ Hrrows).
  unfold bind at 1. rewrite print_otherStmts.
  unfold table_events. rewrite (Forall2_length _ _ _ Hsrows).
  cbn [fst snd app]. rewrite <- !app_assoc. reflexivity.
Qed.

Lemma lines_table_events name ksqls formatted :
  lines (table_events name ksqls formatted)
  = table_lines name (create_of ksqls "") formatted (aux_of ksqls).
Proof.
  unfold table_events, table_lines. cbn [app lines].
  rewrite lines_app, lines_repeat_Recv. cbn [app lines].
  rewrite lines_app, lines_record_events. cbn [app lines].
  rewrite lines_map_Println. reflexivity.
Qed.

Lemma create_of_no_table ksqls createTable :
  forallb not_table ksqls = true -> create_of ksqls createTable = createTable.
Proof.
  revert createTable. induction ksqls as [| [kind sql] ksqls IH];
    intros createTable H; [reflexivity |].
  cbn [forallb] in H. apply andb_prop in H. destruct H as [Hk H].
  unfold create_of in *. cbn [fold_left fst snd].
  unfold not_table in Hk. cbn [fst] in Hk.
  destruct (String.eqb kind "table"); [discriminate | apply IH, H].
Qed.

Lemma create_of_last_table before c after createTable :
  forallb not_table after = true ->
  create_of (before ++ ("table", c) :: after) createTable = c.
Proof.
  intros H. unfold create_of. rewrite fold_left_app. cbn [fold_left fst snd].
  rewrite String.eqb_refl. apply (create_of_no_table after c H).
Qed.

Lemma aux_of_no_table ksqls :
  forallb not_table ksqls = true -> aux_of ksqls = map snd ksqls.
Proof.
  intros H. unfold aux_of. f_equal.
  induction ksqls as [| ks ksqls IH]; [reflexivity |].
  cbn [forallb] in H. apply andb_prop in H. destruct H as [Hk H].
  cbn [List.filter]. rewrite Hk, IH; auto.
Qed.

Lemma aux_of_skips_table before c after :
  aux_of (before ++ ("table", c) :: after) = aux_of (before ++ after).
Proof. unfold aux_of. rewrite !List.filter_app. reflexivity. Qed.

(** C9: the schema query is not required to return exactly one row of
    kind ["table"]. When it returns none, [dumpTables] prints an empty
    line in place of the CREATE TABLE statement, and still the INSERT
    lines and the other statements; when it returns several, the text
    of the last one is printed as the CREATE TABLE statement. *)
Theorem schema_without_single_table_row (config : DbCmdConfig)
    (row : list (option value)) (name : string)
    (ksqls : list (string * string)) (formatted : list (list string)) :
  table_dump config row name ksqls formatted ->
  snd (dumpTable config row) = Done tt
  /\ (forallb not_table ksqls = true ->
      lines (fst (dumpTable config row))
      = table_lines name "" formatted (map snd ksqls))
  /\ (forall before c after,
      ksqls = before ++ ("table", c) :: after ->
      forallb not_table after = true ->
      lines (fst (dumpTable config row))
      = table_lines name c formatted (aux_of (before ++ after))).
Proof.
  intros H. rewrite (dumpTable_done _ _ _ _ _ H). cbn [fst snd].
  rewrite lines_table_events. split; [reflexivity | split].
  - intros Hno. rewrite (create_of_no_table _ _ Hno), (aux_of_no_table _ Hno).
    reflexivity.
  - intros before c after -> Hafter.
    rewrite (create_of_last_table _ _ _ _ Hafter), aux_of_skips_table.
    reflexivity.
Qed.

Lemma dumpTables_rows_step config r rest :
  RowErr r = None ->
  snd (dumpTable config (Row r)) = Done tt ->
  dumpTables_rows (r :: rest) config
  = (Recv (RowsOf TableNamesQuery)
     :: fst (dumpTable config (Row r)) ++ fst (dumpTables_rows rest config),
     snd (dumpTables_rows rest config)).
Proof.
  intros Hr Hd. cbn [dumpTables_rows].
  rewrite bind_emit, Hr, bind_return_error_None.
  rewrite (bind_fst_snd _ _ _ Hd). reflexivity.
Qed.

(** C2: for every table that the dump processes, the sink receives the
    table's CREATE TABLE statement, then one INSERT line for each data
    row in the order of the row stream, then the other statements of
    the table in the order of the schema rows; the tables follow one
    another in the order of their names. *)
Theorem dump_order (config : DbCmdConfig) (tables rest : list RowResult)
    (ds : list dumped_table) :
  Forall2 (dumped_as config) tables ds ->
  lines (fst (dumpTables_rows (tables ++ rest) config))
  = concat (map dumped_lines ds) ++ lines (fst (dumpTables_rows rest config))
  /\ snd (dumpTables_rows (tables ++ rest) config)
     = snd (dumpTables_rows rest config).
Proof.
  induction 1 as [| r d tables ds (Hr & Hno & Hd) _ [IHl IHs]];
    [split; reflexivity |].
  rewrite <- app_comm_cons.
  pose proof (dumpTable_done _ _ _ _ _ Hd) as Hdone.
  rewrite (dumpTables_rows_step _ _ _ Hr (f_equal snd Hdone)).
  cbn [fst snd]. split; [| exact IHs].
  cbn [lines]. rewrite lines_app, IHl, Hdone. cbn [fst concat map].
  rewrite lines_table_events, <- app_assoc. f_equal.
  unfold dumped_lines.
  pose proof Hno as Hboth. rewrite forallb_app in Hboth.
  apply andb_prop in Hboth. destruct Hboth as [_ Hafter].
  rewrite (create_of_last_table _ _ _ _ Hafter), aux_of_skips_table.
  rewrite (aux_of_no_table _ Hno). reflexivity.
Qed.

(** X16: when the enumeration query returns no row the dump returns nil
    and is the preamble alone. *)
Lemma dump_of_no_table config :
  answers config table_names_sql [] ->
  snd (dumpCmd_RunE (Some config)) = Done tt
  /\ lines (fst (dumpCmd_RunE (Some config))) = ["PRAGMA foreign_keys=OFF;"].
Proof.
  intros (sres & sr & more & Hdb & Hch & Herr & Hrows).
  unfold dumpCmd_RunE, getDbTableNames. rewrite bind_emit, bind_assoc.
  rewrite (ExecuteStatements_Done _ _ _ _ Hdb), Hch, bind_assoc.
  rewrite receive_statement_first, Herr, bind_assoc, bind_return_error_None.
  rewrite bind_ret. unfold dumpTables. rewrite Hrows. split; reflexivity.
Qed.

(** C3, amended: [getDbTableNames] waits for the statement result of
    the enumeration query only and receives none of its rows;
    [dumpTables] receives the table-name rows one at a time, and does
    the whole work of a table (which begins with its schema query)
    between the receive of its name and the next receive from the
    enumeration stream. *)
Theorem table_names_are_received_one_at_a_time (config : DbCmdConfig) :
  forallb (fun e => negb (enumeration_event e)) (fst (getDbTableNames config))
  = true
  /\ (forall r rest,
      RowErr r = None ->
      snd (dumpTable config (Row r)) = Done tt ->
      dumpTables_rows (r :: rest) config
      = (Recv (RowsOf TableNamesQuery)
         :: fst (dumpTable config (Row r))
         ++ fst (dumpTables_rows rest config),
         snd (dumpTables_rows rest config)))
  /\ (forall row name more,
      FormatData row TABLE = Done (name :: more) ->
      exists t, fst (dumpTable config row)
                = Exec (schema_sql (EscapeSingleQuotes name)) :: t)
  /\ dumpTables_rows [] config = ([Closed (RowsOf TableNamesQuery)], Done tt).
Proof.
  split; [| split; [| split]].
  - unfold getDbTableNames, ExecuteStatements.
    destruct (Db_ExecuteStatements config table_names_sql)
      as [[[[| sr more] |]] | e | msg |]; try reflexivity.
    cbn. destruct (Err sr); reflexivity.
  - apply dumpTables_rows_step.
  - intros row name more Hname. unfold dumpTable.
    rewrite Hname, bind_lift_Done.
    unfold getTableSchema, ExecuteStatements.
    rewrite !bind_assoc, bind_emit. eexists. reflexivity.
  - reflexivity.
Qed.

(** *** Stopping at the first error *)

Lemma dumpTableRecords_rows_stops pre formatted bad e tableName post :
  Forall2 record_row_is pre formatted ->
  record_row_fails bad e ->
  dumpTableRecords_rows (pre ++ bad :: post) tableName
  = (record_events tableName formatted
     ++ [Recv (RowsOf (RecordsQuery tableName))], Fail e).
Proof.
  intros Hpre Hbad.
  induction Hpre as [| r f pre formatted [Hr Hf] _ IH];
    cbn [app dumpTableRecords_rows].
  - rewrite bind_emit.
    destruct Hbad as [Herr | [Herr Hfmt]]; rewrite Herr.
    + rewrite bind_return_error_Some. reflexivity.
    + rewrite bind_return_error_None, Hfmt, bind_lift_Fail. reflexivity.
  - rewrite bind_emit, Hr, bind_return_error_None, Hf, bind_lift_Done.
    rewrite bind_emit, IH. reflexivity.
Qed.





(** A schema row that carries an error stops the loop of
    [getTableSchema] too, but what is returned is the error slot of the
    statement, which is nil at this point: the error of the row is
    dropped and the results are empty. *)
Lemma getTableSchema_rows_drops_row_error tableName pre ksqls bad e post
    createTable otherStmts :
  Forall2 schema_row_is pre ksqls ->
  RowErr bad = Some e ->
  getTableSchema_rows tableName None (pre ++ bad :: post) createTable otherStmts
  = (repeat (Recv (RowsOf (SchemaQuery tableName))) (S (length pre)),
     Done ("", [])).
Proof.
  intros Hpre Hr. revert createTable otherStmts.
  induction Hpre as [| r [kind sql] pre ksqls [Hr' Hf'] _ IH];
    intros createTable otherStmts;
    cbn [app length repeat getTableSchema_rows].
  - rewrite bind_emit, Hr. reflexivity.
  - rewrite bind_emit, Hr', Hf'. cbn [fst snd].
    destruct (String.eqb kind "table"); rewrite IH; reflexivity.
Qed.




End DumpProperties.

(** ** The dump, on examples *)

Ltac solve_table_dump :=
  unfold table_dump, answers, schema_row_is, record_row_is;
  split; [eexists; reflexivity |];
  split; (eexists; split;
          [do 3 eexists; repeat split; reflexivity
          | repeat (constructor; [split; reflexivity |]); constructor ]).

Lemma schema_without_single_table_row_witness :
  lines (fst (dumpTable (db := spec_db) odd_config [Some (VString "v")]))
  = [""; "INSERT INTO v VALUES (1);"; "CREATE INDEX j ON v (a);"]
  /\ lines (fst (dumpTable (db := spec_db) odd_config [Some (VString "w")]))
     = ["CREATE TABLE w (a, b);"; "INSERT INTO w VALUES (1);";
        "CREATE TRIGGER g;"].
Proof.
  split.
  - refine (proj1 (proj2 (schema_without_single_table_row (db := spec_db)
                     odd_config [Some (VString "v")] "v"
                     [("index", "CREATE INDEX j ON v (a);")] [["1"]] _)) _).
    + solve_table_dump.
    + reflexivity.
  - refine (proj2 (proj2 (schema_without_single_table_row (db := spec_db)
                     odd_config [Some (VString "w")] "w"
                     [("table", "CREATE TABLE w (a);");
                      ("trigger", "CREATE TRIGGER g;");
                      ("table", "CREATE TABLE w (a, b);")] [["1"]] _))
                  [("table", "CREATE TABLE w (a);");
                   ("trigger", "CREATE TRIGGER g;")]
                  "CREATE TABLE w (a, b);" [] _ _).
    + solve_table_dump.
    + reflexivity.
    + reflexivity.
Defined.

Lemma dump_order_witness :
  lines (fst (dumpTables_rows (db := spec_db)
                [text_row ["t"]; text_row ["u"]] demo_config))
  = ["CREATE TABLE t (a);"; "INSERT INTO t VALUES (1);";
     "INSERT INTO t VALUES (NULL);"; "CREATE INDEX i ON t (a);";
     "CREATE TABLE u (b);"].
Proof.
  refine (proj1 (dump_order (db := spec_db) demo_config
                   [text_row ["t"]; text_row ["u"]] []
                   [mkDumpedTable "t" [] "CREATE TABLE t (a);"
                      [("index", "CREATE INDEX i ON t (a);")] [["1"]; ["NULL"]];
                    mkDumpedTable "u" [] "CREATE TABLE u (b);" [] []] _)).
  repeat (constructor;
          [split; [reflexivity | split; [reflexivity | solve_table_dump]] |]).
  constructor.
Defined.

(** C3, as stated, fails: in the dump of the two tables [t] and [u] the
    name of [u] is received, and the enumeration stream found closed,
    after the work done for [t]. *)
Lemma table_names_are_not_consumed_first :
  snd (getDbTableNames demo_config) = Done demo_names
  /\ snd (dumpTables (db := spec_db) demo_names demo_config) = Done tt
  /\ enumeration_first
       (fst (dumpTables (db := spec_db) demo_names demo_config)) = false
  /\ exists before after,
      fst (dumpTables (db := spec_db) demo_names demo_config)
      = before ++ [Println "CREATE INDEX i ON t (a);";
                   Recv (RowsOf TableNamesQuery)] ++ after.
Proof.
  split; [reflexivity | split; [reflexivity | split; [reflexivity |]]].
  eexists (firstn 14 (fst (dumpTables (db := spec_db) demo_names demo_config))).
  eexists. vm_compute. reflexivity.
Qed.

Lemma table_names_are_received_one_at_a_time_witness :
  dumpTables_rows (db := spec_db) [text_row ["u"]] demo_config
  = (Recv (RowsOf TableNamesQuery)
     :: fst (dumpTable (db := spec_db) demo_config (Row (text_row ["u"])))
     ++ [Closed (RowsOf TableNamesQuery)], Done tt).
Proof.
  apply (proj1 (proj2 (table_names_are_received_one_at_a_time
                         (db := spec_db) demo_config))
           (text_row ["u"]) []); reflexivity.
Defined.



(** The whole dump of the two tables [t] and [u]. *)
Example dump_of_two_tables :
  snd (dumpCmd_RunE (db := spec_db) (Some demo_config)) = Done tt
  /\ lines (fst (dumpCmd_RunE (db := spec_db) (Some demo_config)))
     = ["PRAGMA foreign_keys=OFF;";
        "CREATE TABLE t (a);"; "INSERT INTO t VALUES (1);";
        "INSERT INTO t VALUES (NULL);"; "CREATE INDEX i ON t (a);";
        "CREATE TABLE u (b);"].
Proof. split; reflexivity. Qed.

(** A table name with a single quote is escaped in the queries and quoted
    in the INSERT lines. *)
Example insertStatement_of_a_quoted_name :
  insertStatement (db := spec_db) "it's" ["1"; "NULL"]
  = "INSERT INTO 'it''s' VALUES (1, NULL);"
  /\ records_sql (EscapeSingleQuotes (DbPackage := spec_db) "it's")
     = "SELECT * FROM 'it''s'".
Proof. split; reflexivity. Qed.

(** The slip of [getTableSchema] on an example: the error of a schema row
    is dropped, and the dump goes on with an empty CREATE TABLE line. *)
Lemma schema_row_error_is_dropped :
  getTableSchema (db := spec_db) failing_schema_config "t"
  = ([Exec (schema_sql "t"); Recv (StatementsOf (SchemaQuery "t"));
      Recv (RowsOf (SchemaQuery "t")); Recv (RowsOf (SchemaQuery "t"))],
     Done ("", []))
  /\ snd (dumpTable (db := spec_db) failing_schema_config [Some (VString "t")])
     = Done tt
  /\ lines (fst (dumpTable (db := spec_db) failing_schema_config
                   [Some (VString "t")]))
     = [""; "INSERT INTO t VALUES (1);"].
Proof. repeat split; reflexivity. Qed.

(** * Further properties *)

(** ** Rows of values *)

(** X1: [formatData] returns a row exactly when every value of the row is
    formatted, and then the strings are those of the values, one for one
    and in the same order. *)
Theorem formatData_is_pointwise (row : list (option value)) (out : list string) :
  formatData row = Done out
  <-> Forall2 (fun val result => formatValue val = Done result) row out.
Proof.
  split.
  - revert out. induction row as [| val rest IH]; intros out H.
    + injection H as <-. constructor.
    + cbn [formatData] in H.
      destruct (formatValue val) as [result | | |] eqn:Hval; try discriminate H.
      cbn [obind] in H.
      destruct (formatData rest) as [formattedRow | | |]; try discriminate H.
      injection H as <-. constructor; [exact Hval | apply IH; reflexivity].
  - induction 1 as [| val result rest out Hval _ IH]; [reflexivity |].
    cbn [formatData]. rewrite Hval. cbn [obind]. rewrite IH. reflexivity.
Qed.

(** X2: [formatData] returns the error of the first value that fails,
    whatever the values after it. *)
Theorem formatData_returns_the_first_error (pre : list (option value))
    (bad : option value) (e : error) (post : list (option value)) :
  Forall (fun val => exists result, formatValue val = Done result) pre ->
  formatValue bad = Fail e ->
  formatData (pre ++ bad :: post) = Fail e.
Proof.
  intros Hpre Hbad. induction Hpre as [| val pre [result Hval] _ IH];
    cbn [app formatData].
  - rewrite Hbad. reflexivity.
  - rewrite Hval. cbn [obind]. rewrite IH. reflexivity.
Qed.

Lemma formatData_returns_the_first_error_witness :
  formatData ([Some (VInt KInt64 1); None] ++ Some (VOther Chan)
              :: [Some (VSlice "" Int [])])
  = Fail (Errorf "unsupported type: chan").
Proof.
  apply formatData_returns_the_first_error; [| reflexivity].
  repeat constructor; eexists; reflexivity.
Defined.

(** ** Wrappers *)

Lemma formatValue_raw (payload : value) :
  is_raw payload = true -> formatValue (Some payload) = formatRawTypes payload.
Proof.
  destruct payload as [| b | k n | k dec | s | | | | | |]; try discriminate;
    intros _; try reflexivity; destruct k; reflexivity.
Qed.

(** X3: a wrapper of one of the seven scalar types whose validity flag is
    true is formatted as its payload is when given bare: wrapping changes
    nothing to the text. *)
Theorem valid_wrapper_formats_as_its_payload (name field : string)
    (fields : list (string * value)) (payload : value) :
  In (name, field) scalar_wrappers ->
  lookup_field "Valid" fields = VBool true ->
  lookup_field field fields = payload ->
  is_raw payload = true ->
  formatValue (Some (VStruct name fields)) = formatValue (Some payload).
Proof.
  intros Hin HValid Hfield Hraw.
  rewrite (formatValue_raw payload Hraw), formatValue_struct.
  unfold formatStruct. cbn [FieldByName Struct_Name]. rewrite HValid.
  cbn [IsValid negb Value_Bool obind].
  unfold scalar_wrappers in Hin. cbn [In] in Hin.
  repeat (destruct Hin as [Hin | Hin];
          [injection Hin as <- <-; cbn; rewrite Hfield; reflexivity |]).
  destruct Hin.
Qed.

Lemma valid_wrapper_formats_as_its_payload_witness :
  formatValue (Some (VStruct "NullInt32"
                       [("Int32", VInt KInt32 (-7)); ("Valid", VBool true)]))
  = formatValue (Some (VInt KInt32 (-7))).
Proof.
  apply (valid_wrapper_formats_as_its_payload "NullInt32" "Int32");
    [ do 4 right; left; reflexivity | reflexivity .. ].
Defined.

(** X4: a struct that has no [Valid] field is a format error that names
    its type; so is a [time.Time] given bare, outside a [NullTime]. *)
Theorem struct_without_Valid_is_an_error :
  (forall name fields,
      lookup_field "Valid" fields = VZero ->
      formatValue (Some (VStruct name fields))
      = Fail (Errorf ("unsupported struct type: " +:+ name
                      +:+ ". missing Valid field")))
  /\ (forall t,
      formatValue (Some (VTime t))
      = Fail (Errorf "unsupported struct type: Time. missing Valid field")).
Proof.
  split.
  - intros name fields H. rewrite formatValue_struct. unfold formatStruct.
    cbn [FieldByName Struct_Name]. rewrite H. reflexivity.
  - reflexivity.
Qed.

(** ** Byte sequences *)

Lemma concat_nil_sep (x : string) (xs : list string) :
  String.concat "" (x :: xs) = x +:+ String.concat "" xs.
Proof.
  destruct xs as [| y ys]; cbn [String.concat]; [| reflexivity].
  symmetry. unfold String.app. induction x; cbn; congruence.
Qed.

Lemma parse_hex_pair (b : Byte.byte) (rest : string) :
  parse_hex (hex_pair b +:+ rest)
  = match parse_hex rest with Some bs => Some (b :: bs) | None => None end.
Proof. destruct b; reflexivity. Qed.

(** X5: the text of a byte sequence can be read back: it is ["0x"]
    followed by pairs of upper-case hexadecimal digits that give the bytes
    again, so that two byte sequences with the same text are equal. *)
Theorem formatBytes_can_be_read_back (bytes : list Byte.byte) :
  parse_blob (formatBytes bytes) = Some bytes
  /\ (forall bytes', formatBytes bytes = formatBytes bytes' -> bytes = bytes').
Proof.
  assert (forall bs, parse_blob (formatBytes bs) = Some bs) as Hparse.
  { intros bs. change (parse_blob (formatBytes bs)) with (parse_hex (upper_hex bs)).
    unfold upper_hex. induction bs as [| b bs IH]; [reflexivity |].
    cbn [map]. rewrite concat_nil_sep, parse_hex_pair, IH. reflexivity. }
  split; [apply Hparse |].
  intros bytes' H. pose proof (Hparse bytes) as H1. rewrite H, Hparse in H1.
  congruence.
Qed.

(** ** Base64 texts *)

Lemma encoded_map_formats_as_bytes_witness :
  formatValue (base64_map_unboxed (EncodeToString [Byte.xde; Byte.xad]))
  = Done (formatBytes [Byte.xde; Byte.xad]).
Proof.
  apply (proj2 (proj2 (encoded_map_formats_as_bytes [Byte.xde; Byte.xad]))).
  discriminate.
Defined.

Lemma corrupt_base64_is_an_error_witness :
  exists offset,
    formatValue (base64_map_boxed "AA=A")
    = Fail (ErrorsJoin (ErrorsNew "unable to decode base64 value")
                       (CorruptInputError offset))
    /\ formatValue (base64_map_unboxed "AA=A")
       = Fail (ErrorsJoin (ErrorsNew "unable to decode base64 value")
                          (CorruptInputError offset)).
Proof. apply corrupt_base64_is_an_error. reflexivity. Defined.


Lemma formatMap_absent_entry_panics_witness :
  formatValue (Some (VMap true {[ "hex" := EString "00" ]}))
  = Panic "reflect: call of reflect.Value.IsZero on zero Value".
Proof. apply formatMap_absent_entry_panics. reflexivity. Defined.

Lemma length_quantum_bytes (q : list Z) :
  length (quantum_bytes q) = Nat.min (length q - 1) 3.
Proof. unfold quantum_bytes. rewrite length_take. reflexivity. Qed.

(** The decoder stores at most six bits for each character read. *)
Lemma decode_quanta_length (src : list ascii) :
  forall si q bs,
    (length q < 4)%nat ->
    decode_quanta src si q = Done bs ->
    (8 * length bs <= 6 * (length q + length src))%nat.
Proof.
  induction src as [| c rest IH]; intros si q bs Hq H; cbn [decode_quanta] in H.
  - destruct q as [| a [| b q']].
    + injection H as <-. cbn. lia.
    + discriminate H.
    + injection H as <-. rewrite length_quantum_bytes. cbn [length] in *. lia.
  - cbn [length]. destruct (decodeMap c) as [out |].
    + destruct (length (q ++ [out]) =? 4)%nat eqn:Hfull.
      * destruct (decode_quanta rest (si + 1) []) as [tail | | |] eqn:Htail;
          try discriminate H.
        injection H as <-. apply IH in Htail; [| cbn; lia].
        apply Nat.eqb_eq in Hfull.
        rewrite length_app, length_quantum_bytes, Hfull.
        rewrite length_app in Hfull. cbn [length] in *. lia.
      * apply Nat.eqb_neq in Hfull. rewrite length_app in Hfull.
        cbn [length] in Hfull.
        apply IH in H; [| rewrite length_app; cbn [length]; lia].
        rewrite length_app in H. cbn [length] in H. lia.
    + destruct (Ascii.eqb c "010" || Ascii.eqb c "013")%bool; [| discriminate H].
      apply IH in H; [lia | exact Hq].
Qed.

Lemma length_list_ascii_of_string (s : string) :
  length (list_ascii_of_string s) = String.length s.
Proof. induction s as [| c s IH]; cbn; congruence. Qed.

Lemma drop_repeat {A} (x : A) (n k : nat) :
  drop k (repeat x n) = repeat x (n - k).
Proof.
  revert k. induction n as [| n IH]; intros [| k]; cbn; auto.
Qed.

(** X8: when [decodeBase64ToHex] returns a text, the decoded bytes fit in
    the buffer of [DecodedLen(len(s))] bytes that it allocates, and the
    text is that of the whole buffer: the decoded bytes followed by the
    zero bytes that were not written. *)
Theorem decodeBase64ToHex_formats_the_whole_buffer (s text : string) :
  decodeBase64ToHex s = Done text ->
  let size := Z.to_nat (DecodedLen (Z.of_nat (String.length s))) in
  exists bs,
    decode_quanta (list_ascii_of_string s) 0 [] = Done bs
    /\ (length bs <= size)%nat
    /\ text = formatBytes (bs ++ repeat Byte.x00 (size - length bs)).
Proof.
  intros H size. unfold decodeBase64ToHex, Decode in H. fold size in H.
  destruct (decode_quanta (list_ascii_of_string s) 0 []) as [bs | | |] eqn:Hd;
    try discriminate H.
  cbn [obind] in H. injection H as <-. exists bs.
  split; [reflexivity | split; [| rewrite drop_repeat; reflexivity]].
  apply decode_quanta_length in Hd; [| cbn; lia].
  rewrite length_list_ascii_of_string in Hd. cbn [length] in Hd.
  unfold size, DecodedLen.
  apply Nat2Z.inj_le. rewrite Z2Nat.id by (apply Z.div_pos; lia).
  apply Z.div_le_lower_bound; lia.
Qed.

Lemma decodeBase64ToHex_formats_the_whole_buffer_witness :
  exists bs,
    decode_quanta (list_ascii_of_string AA_newline) 0 [] = Done bs
    /\ (length bs <= 2)%nat
    /\ "0x0000" = formatBytes (bs ++ repeat Byte.x00 (2 - length bs)).
Proof.
  apply (decodeBase64ToHex_formats_the_whole_buffer AA_newline "0x0000").
  reflexivity.
Defined.

Lemma decode_quanta_dangling (src : list ascii) :
  forall si q,
    forallb in_alphabet src = true ->
    (length q < 4)%nat ->
    ((length q + length src) mod 4 = 1)%nat ->
    decode_quanta src si q
    = Fail (CorruptInputError (si + Z.of_nat (length src) - 1)).
Proof.
  induction src as [| c rest IH]; intros si q Hsrc Hq Hmod;
    cbn [decode_quanta length].
  - destruct q as [| a [| b [| c' [| d q']]]]; cbn [length] in *;
      try discriminate Hmod; try lia.
    f_equal. f_equal. lia.
  - cbn [forallb] in Hsrc. apply andb_prop in Hsrc. destruct Hsrc as [Hc Hrest].
    unfold in_alphabet in Hc. destruct (decodeMap c) as [out |]; [| discriminate Hc].
    cbn [length] in Hmod.
    destruct (length (q ++ [out]) =? 4)%nat eqn:Hfull.
    + apply Nat.eqb_eq in Hfull. rewrite length_app in Hfull. cbn [length] in Hfull.
      rewrite (IH (si + 1) [] Hrest); [| cbn; lia |].
      * cbn [obind]. f_equal. f_equal. lia.
      * cbn [length]. replace (length q + S (length rest))%nat
          with (length rest + 1 * 4)%nat in Hmod by lia.
        rewrite Nat.Div0.mod_add in Hmod. exact Hmod.
    + apply Nat.eqb_neq in Hfull. rewrite length_app in Hfull. cbn [length] in Hfull.
      rewrite (IH (si + 1) (q ++ [out]) Hrest).
      * f_equal. f_equal. lia.
      * rewrite length_app. cbn [length]. lia.
      * rewrite length_app. cbn [length].
        replace (length q + 1 + length rest)%nat
          with (length q + S (length rest))%nat by lia.
        exact Hmod.
Qed.

(** X9: a base64 text made of characters of the alphabet whose length
    leaves one character over after groups of four is a decode error at
    its last index, joined to the context message. *)
Theorem dangling_base64_character_is_an_error (s : string) :
  forallb in_alphabet (list_ascii_of_string s) = true ->
  (String.length s mod 4 = 1)%nat ->
  formatValue (base64_map_boxed s)
  = Fail (ErrorsJoin (ErrorsNew "unable to decode base64 value")
                     (CorruptInputError (Z.of_nat (String.length s) - 1))).
Proof.
  intros Hs Hmod. unfold base64_map_boxed. rewrite formatValue_map.
  unfold formatMap, MapIndex. rewrite lookup_singleton_eq. cbn [obind IsZero].
  unfold decodeBase64ToHex, Decode.
  rewrite (decode_quanta_dangling _ 0 [] Hs); cbn [length obind].
  - rewrite length_list_ascii_of_string. reflexivity.
  - lia.
  - rewrite length_list_ascii_of_string. exact Hmod.
Qed.

Lemma dangling_base64_character_is_an_error_witness :
  formatValue (base64_map_boxed "AAECA")
  = Fail (ErrorsJoin (ErrorsNew "unable to decode base64 value")
                     (CorruptInputError 4)).
Proof.
  apply (dangling_base64_character_is_an_error "AAECA"); reflexivity.
Defined.

(** ** Printing statements *)

Lemma PrintStatementResult_rows_all_or_nothing (rows : list RowResult) :
  forall header table,
    snd (PrintStatementResult_rows rows header table) = Done tt
    \/ written (fst (PrintStatementResult_rows rows header table)) = [].
Proof.
  induction rows as [| row rest IH]; intros header table;
    cbn [PrintStatementResult_rows].
  - left. reflexivity.
  - rewrite bind_emit. cbn [fst snd].
    destruct (RowErr row) as [e |].
    + right. reflexivity.
    + rewrite bind_return_error_None.
      destruct (formatData (Row row)) as [formattedRow | e | msg |];
        try (right; reflexivity).
      rewrite bind_lift_Done.
      destruct (IH header (table ++ [formattedRow])) as [H | H];
        [left; exact H | right; exact H].
Qed.

Lemma PrintStatementResult_writes_all_or_nothing statementResult withoutHeader :
  snd (PrintStatementResult statementResult withoutHeader) = Done tt
  \/ written (fst (PrintStatementResult statementResult withoutHeader)) = [].
Proof.
  unfold PrintStatementResult.
  destruct (RowCh statementResult) as [rows |]; [| right; reflexivity].
  destruct (length (ColumnNames statementResult) =? 0)%nat;
    [left; reflexivity | apply PrintStatementResult_rows_all_or_nothing].
Qed.

(** X12: [PrintStatementResult] writes all or nothing: unless it returns
    nil, be it for an error, a panic of the formatter or a nil channel,
    nothing has been written to the sink. *)
Theorem PrintStatementResult_all_or_nothing (statementResult : StatementResult)
    (withoutHeader : bool) :
  snd (PrintStatementResult statementResult withoutHeader) <> Done tt ->
  written (fst (PrintStatementResult statementResult withoutHeader)) = [].
Proof.
  intros H.
  destruct (PrintStatementResult_writes_all_or_nothing statementResult withoutHeader)
    as [Hdone | Hnothing]; [contradiction | exact Hnothing].
Qed.

Lemma PrintStatementResult_all_or_nothing_witness :
  written
    (fst (PrintStatementResult
            (mkStatementResult ["a"]
               (Some [mkRowResult [Some (VInt KInt64 1)] None;
                      mkRowResult [Some (VMap true ∅)] None]) None) false))
  = [].
Proof. apply PrintStatementResult_all_or_nothing. discriminate. Defined.

Lemma PrintStatementResult_printable statementResult withoutHeader formatted :
  printable statementResult formatted ->
  snd (PrintStatementResult statementResult withoutHeader) = Done tt
  /\ written (fst (PrintStatementResult statementResult withoutHeader))
     = rendered withoutHeader statementResult formatted.
Proof.
  intros (Herr & rows & Hch & Hrows). unfold rendered.
  destruct (ColumnNames statementResult) as [| c cs] eqn:Hcols.
  - unfold PrintStatementResult. rewrite Hch, Hcols. split; reflexivity.
  - destruct Hrows as [Hnil | Hrows]; [discriminate Hnil |].
    rewrite (PrintStatementResult_unfold _ withoutHeader rows Hch)
      by (rewrite Hcols; discriminate).
    rewrite (PrintStatementResult_rows_done _ _ _ [] Hrows).
    cbn [fst snd app]. split; [reflexivity |].
    rewrite written_app, written_repeat_Recv. reflexivity.
Qed.

Lemma PrintStatementsResult_statements_printable withoutHeader
    statements tables rest :
  Forall2 printable statements tables ->
  snd (PrintStatementsResult_statements (statements ++ rest) withoutHeader)
  = snd (PrintStatementsResult_statements rest withoutHeader)
  /\ written (fst (PrintStatementsResult_statements (statements ++ rest)
                     withoutHeader))
     = all_rendered withoutHeader statements tables
       ++ written (fst (PrintStatementsResult_statements rest withoutHeader)).
Proof.
  induction 1 as [| sr formatted statements tables Hsr _ [IHs IHw]];
    [split; reflexivity |].
  destruct (PrintStatementResult_printable sr withoutHeader formatted Hsr)
    as [Hdone Hwritten].
  rewrite <- app_comm_cons. cbn [PrintStatementsResult_statements].
  rewrite bind_emit, (proj1 Hsr), bind_return_error_None.
  rewrite (bind_fst_snd _ _ _ Hdone). cbn [fst snd]. split; [exact IHs |].
  unfold all_rendered in *. cbn [combine flat_map fst snd].
  change (written (Recv (StatementsOf ShellQuery) :: ?t)) with (written t).
  rewrite written_app, Hwritten, IHw, app_assoc. reflexivity.
Qed.

(** X13: for a stream of statements without error whose rows are all
    good, [PrintStatementsResult] returns nil and has rendered one table
    for each statement that has columns, in the order of the stream, and
    nothing for a statement without column. *)
Theorem PrintStatementsResult_renders_the_statements_in_order
    (withoutHeader : bool) (statements : list StatementResult)
    (tables : list (list (list string))) :
  Forall2 printable statements tables ->
  snd (PrintStatementsResult (mkStatementsResult (Some statements)) withoutHeader)
  = Done tt
  /\ written (fst (PrintStatementsResult (mkStatementsResult (Some statements))
                     withoutHeader))
     = all_rendered withoutHeader statements tables.
Proof.
  intros H. unfold PrintStatementsResult. cbn [StatementResultCh].
  destruct (PrintStatementsResult_statements_printable withoutHeader _ _ [] H)
    as [Hs Hw].
  rewrite app_nil_r in Hs, Hw. rewrite Hs, Hw. cbn. rewrite app_nil_r.
  split; reflexivity.
Qed.

Lemma PrintStatementsResult_renders_the_statements_in_order_witness :
  written
    (fst (PrintStatementsResult
            (mkStatementsResult
               (Some [mkStatementResult ["a"]
                        (Some [mkRowResult [Some (VInt KInt64 1)] None]) None;
                      mkStatementResult [] (Some []) None;
                      mkStatementResult ["b"; "c"]
                        (Some [mkRowResult [None; Some (VString "x")] None])
                        None])) true))
  = [Render None [["1"]]; Render None [["NULL"; "x"]]].
Proof.
  refine (proj2 (PrintStatementsResult_renders_the_statements_in_order true
                   _ [[["1"]]; []; [["NULL"; "x"]]] _)).
  repeat (constructor;
          [split; [reflexivity |];
           eexists; split; [reflexivity |];
           first [left; reflexivity
                 | right; repeat (constructor; [split; reflexivity |]);
                   constructor] |]).
  constructor.
Defined.

(** X14: when a statement of the stream fails, after statements that
    are printed, [PrintStatementsResult] returns its error; the tables of
    the statements before it stay written and nothing else is, whatever
    follows in the stream. *)
Theorem PrintStatementsResult_keeps_the_tables_before_the_error
    (withoutHeader : bool) (pre : list StatementResult)
    (tables : list (list (list string))) (bad : StatementResult) (e : error)
    (post : list StatementResult) :
  Forall2 printable pre tables ->
  statement_fails withoutHeader bad e ->
  snd (PrintStatementsResult (mkStatementsResult (Some (pre ++ bad :: post)))
         withoutHeader)
  = Fail e
  /\ written (fst (PrintStatementsResult
                     (mkStatementsResult (Some (pre ++ bad :: post)))
                     withoutHeader))
     = all_rendered withoutHeader pre tables.
Proof.
  intros Hpre Hbad. unfold PrintStatementsResult. cbn [StatementResultCh].
  destruct (PrintStatementsResult_statements_printable withoutHeader _ _
              (bad :: post) Hpre) as [Hs Hw].
  rewrite Hs, Hw. cbn [PrintStatementsResult_statements].
  rewrite bind_emit. cbn [fst snd].
  change (written (Recv (StatementsOf ShellQuery) :: ?t)) with (written t).
  destruct Hbad as [Herr | [Herr Hfail]]; rewrite Herr.
  - rewrite bind_return_error_Some. cbn. rewrite app_nil_r. split; reflexivity.
  - rewrite bind_return_error_None, (bind_fails _ _ _ Hfail). cbn [fst snd].
    destruct (PrintStatementResult_writes_all_or_nothing bad withoutHeader)
      as [Hdone | Hnothing]; [congruence |].
    rewrite Hnothing, app_nil_r. split; reflexivity.
Qed.

Lemma PrintStatementsResult_keeps_the_tables_before_the_error_witness :
  written
    (fst (PrintStatementsResult
            (mkStatementsResult
               (Some ([mkStatementResult ["a"]
                         (Some [mkRowResult [Some (VInt KInt64 1)] None]) None]
                      ++ mkStatementResult ["b"]
                           (Some [mkRowResult [Some (VOther Func)] None]) None
                      :: [mkStatementResult ["c"] (Some []) None]))) false))
  = [Render (Some ["a"]) [["1"]]].
Proof.
  refine (proj2 (PrintStatementsResult_keeps_the_tables_before_the_error false
                   _ [[["1"]]] _ (Errorf "unsupported type: func") _ _ _)).
  - constructor; [| constructor].
    split; [reflexivity |]. eexists. split; [reflexivity |].
    right. constructor; [split; reflexivity | constructor].
  - right. split; reflexivity.
Defined.

(** ** The dump command *)

Section MoreDumpProperties.

Context `{db : DbPackage}.

Lemma dumpCmd_RunE_first_statement config statementsResult statementResult more :
  Db_ExecuteStatements config table_names_sql = Done statementsResult ->
  StatementResultCh statementsResult = Some (statementResult :: more) ->
  dumpCmd_RunE (Some config)
  = (Println "PRAGMA foreign_keys=OFF;" :: Exec table_names_sql
     :: Recv (StatementsOf TableNamesQuery)
     :: fst (return_error (Err statementResult) >>
             dumpTables statementResult config),
     snd (return_error (Err statementResult) >>
          dumpTables statementResult config)).
Proof.
  intros Hdb Hch. unfold dumpCmd_RunE, getDbTableNames.
  rewrite bind_emit, bind_assoc.
  rewrite (ExecuteStatements_Done _ _ _ _ Hdb), Hch, bind_assoc.
  rewrite receive_statement_first, bind_assoc. cbn [fst snd].
  destruct (Err statementResult) as [e |]; [reflexivity |].
  rewrite !bind_return_error_None, bind_ret. reflexivity.
Qed.

(** X17: when the enumeration query fails, or its statement carries an
    error, the dump returns that error and has written the preamble
    only. *)
Theorem failed_enumeration_leaves_the_preamble (config : DbCmdConfig)
    (e : error) :
  Db_ExecuteStatements config table_names_sql = Fail e
  \/ (exists statementsResult statementResult more,
         Db_ExecuteStatements config table_names_sql = Done statementsResult
         /\ StatementResultCh statementsResult = Some (statementResult :: more)
         /\ Err statementResult = Some e) ->
  snd (dumpCmd_RunE (Some config)) = Fail e
  /\ lines (fst (dumpCmd_RunE (Some config))) = ["PRAGMA foreign_keys=OFF;"].
Proof.
  intros [Hdb | (sres & sr & more & Hdb & Hch & Herr)].
  - unfold dumpCmd_RunE, getDbTableNames, ExecuteStatements.
    rewrite Hdb. split; reflexivity.
  - rewrite (dumpCmd_RunE_first_statement _ _ _ _ Hdb Hch), Herr.
    split; reflexivity.
Qed.

(** X18: when the enumeration query yields no row stream (a nil statement
    channel, a channel closed before any statement, or a statement whose
    row channel is nil), the dump does not fail: it blocks for ever, after
    the preamble. *)
Theorem enumeration_without_row_stream_blocks (config : DbCmdConfig)
    (statementsResult : StatementsResult) :
  Db_ExecuteStatements config table_names_sql = Done statementsResult ->
  no_row_stream statementsResult ->
  snd (dumpCmd_RunE (Some config)) = Hang
  /\ lines (fst (dumpCmd_RunE (Some config))) = ["PRAGMA foreign_keys=OFF;"].
Proof.
  intros Hdb Hno. unfold no_row_stream in Hno.
  destruct (StatementResultCh statementsResult) as [[| sr more] |] eqn:Hch.
  - unfold dumpCmd_RunE, getDbTableNames, ExecuteStatements.
    rewrite Hdb. cbn. rewrite Hch. split; reflexivity.
  - destruct Hno as [Herr Hrows].
    rewrite (dumpCmd_RunE_first_statement _ _ _ _ Hdb Hch), Herr.
    rewrite bind_return_error_None. unfold dumpTables. rewrite Hrows.
    split; reflexivity.
  - unfold dumpCmd_RunE, getDbTableNames, ExecuteStatements.
    rewrite Hdb. cbn. rewrite Hch. split; reflexivity.
Qed.

Lemma bind_hangs {A B} (m : io A) (f : A -> io B) :
  snd m = Hang -> bind m f = (fst m, Hang).
Proof. destruct m as [t r]. cbn [fst snd]. intros ->. reflexivity. Qed.

Lemma getTableSchema_without_row_stream config tableName statementsResult :
  Db_ExecuteStatements config (schema_sql (EscapeSingleQuotes tableName))
  = Done statementsResult ->
  no_row_stream statementsResult ->
  snd (getTableSchema config tableName) = Hang
  /\ lines (fst (getTableSchema config tableName)) = [].
Proof.
  intros Hdb Hno. unfold no_row_stream in Hno. unfold getTableSchema.
  rewrite (ExecuteStatements_Done _ _ _ _ Hdb).
  destruct (StatementResultCh statementsResult) as [[| sr more] |].
  - split; reflexivity.
  - destruct Hno as [Herr Hrows].
    rewrite receive_statement_first, Herr, bind_return_error_None, Hrows.
    split; reflexivity.
  - split; reflexivity.
Qed.

(** X19: when the schema query of a table yields no row stream, the dump
    blocks for ever in [getTableSchema], before anything is written for
    the table. *)
Theorem schema_query_without_row_stream_blocks (config : DbCmdConfig)
    (row : list (option value)) (name : string) (more : list string)
    (statementsResult : StatementsResult) :
  FormatData row TABLE = Done (name :: more) ->
  Db_ExecuteStatements config (schema_sql (EscapeSingleQuotes name))
  = Done statementsResult ->
  no_row_stream statementsResult ->
  snd (dumpTable config row) = Hang
  /\ lines (fst (dumpTable config row)) = [].
Proof.
  intros Hname Hdb Hno.
  destruct (getTableSchema_without_row_stream config name _ Hdb Hno)
    as [Hhang Hlines].
  unfold dumpTable. rewrite Hname, bind_lift_Done, (bind_hangs _ _ Hhang).
  split; [reflexivity | exact Hlines].
Qed.

(** X20: when a data row fails, after rows that are all good,
    [dumpTableRecords] returns its error; the INSERT lines of the rows
    before it stay written and no line is written for the row or for the
    rows after it. *)
Theorem dumpTableRecords_keeps_the_lines_before_the_error
    (columns : list string) (err : option error) (tableName : string)
    (pre : list RowResult) (formatted : list (list string)) (bad : RowResult)
    (e : error) (post : list RowResult) :
  Forall2 record_row_is pre formatted ->
  record_row_fails bad e ->
  snd (dumpTableRecords
         (mkStatementResult columns (Some (pre ++ bad :: post)) err) tableName)
  = Fail e
  /\ lines (fst (dumpTableRecords
                   (mkStatementResult columns (Some (pre ++ bad :: post)) err)
                   tableName))
     = map (insertStatement tableName) formatted.
Proof.
  intros Hpre Hbad. unfold dumpTableRecords. cbn [RowCh].
  rewrite (dumpTableRecords_rows_stops _ _ _ _ tableName post Hpre Hbad).
  cbn [fst snd]. split; [reflexivity |].
  rewrite lines_app, lines_record_events. cbn. apply app_nil_r.
Qed.

(** X21: when a data row of a table fails, the dump of the table returns
    the error after the CREATE TABLE statement and the INSERT lines of the
    rows before it: the other statements of the table (indexes, triggers)
    are not written. *)
Theorem failed_records_leave_no_auxiliary_statement (config : DbCmdConfig)
    (row : list (option value)) (name : string) (more : list string)
    (schema : list RowResult) (ksqls : list (string * string))
    (pre : list RowResult) (formatted : list (list string)) (bad : RowResult)
    (e : error) (post : list RowResult) :
  FormatData row TABLE = Done (name :: more) ->
  answers config (schema_sql (EscapeSingleQuotes name)) schema ->
  Forall2 schema_row_is schema ksqls ->
  answers config (records_sql (EscapeSingleQuotes name)) (pre ++ bad :: post) ->
  Forall2 record_row_is pre formatted ->
  record_row_fails bad e ->
  snd (dumpTable config row) = Fail e
  /\ lines (fst (dumpTable config row))
     = create_of ksqls "" :: map (insertStatement name) formatted.
Proof.
  intros Hname Hschema Hsrows (sres & sr & rest & Hdb & Hch & Herr & Hrows)
         Hpre Hbad.
  unfold dumpTable. rewrite Hname, bind_lift_Done.
  rewrite (bind_fst_snd _ _ _
             (f_equal snd (getTableSchema_done _ _ _ _ Hschema Hsrows))).
  rewrite (getTableSchema_done _ _ _ _ Hschema Hsrows). cbn [fst snd].
  rewrite bind_emit.
  rewrite (bind_fst_snd _ _ _
             (f_equal snd (getTableRecords_done _ _ _ _ _ Hdb Hch Herr))).
  rewrite (getTableRecords_done _ _ _ _ _ Hdb Hch Herr). cbn [fst snd].
  unfold dumpTableRecords. rewrite Hrows.
  pose proof (dumpTableRecords_rows_stops _ _ _ _ name post Hpre Hbad) as Hstop.
  rewrite (bind_fails _ _ _ (f_equal snd Hstop)), Hstop.
  cbn [fst snd app lines]. split; [reflexivity |].
  rewrite !lines_app, lines_repeat_Recv. cbn [app lines].
  rewrite lines_app, lines_record_events. cbn [lines]. rewrite app_nil_r.
  reflexivity.
Qed.

(** X22: when a schema row carries an error, after rows that are all
    good, [getTableSchema] stops there but returns no error: it returns
    [statementResult.Err], which is nil, with an empty CREATE TABLE
    statement and no other statement, so that the error of the row and
    the statements read before it are lost. *)
Theorem schema_row_error_is_lost (config : DbCmdConfig) (tableName : string)
    (pre : list RowResult) (ksqls : list (string * string)) (bad : RowResult)
    (e : error) (post : list RowResult) :
  answers config (schema_sql (EscapeSingleQuotes tableName))
          (pre ++ bad :: post) ->
  Forall2 schema_row_is pre ksqls ->
  RowErr bad = Some e ->
  snd (getTableSchema config tableName) = Done ("", []).
Proof.
  intros (sres & sr & more & Hdb & Hch & Herr & Hrows) Hpre Hbad.
  unfold getTableSchema.
  rewrite (ExecuteStatements_Done _ _ _ _ Hdb), Hch, receive_statement_first.
  rewrite Herr, bind_return_error_None, Hrows.
  rewrite (getTableSchema_rows_drops_row_error _ _ _ _ _ post "" [] Hpre Hbad).
  reflexivity.
Qed.

(** X23: a schema row that is formatted to a number of columns other than
    two stops [getTableSchema] with an error that tells the number found,
    whatever the rows after it. *)
Theorem malformed_schema_row_is_an_error (tableName : string)
    (err : option error) (pre : list RowResult) (ksqls : list (string * string))
    (bad : RowResult) (formatted : list string) (post : list RowResult)
    (createTable : string) (otherStmts : list string) :
  Forall2 schema_row_is pre ksqls ->
  RowErr bad = None ->
  FormatData (Row bad) TABLE = Done formatted ->
  length formatted <> 2%nat ->
  getTableSchema_rows tableName err (pre ++ bad :: post) createTable otherStmts
  = (repeat (Recv (RowsOf (SchemaQuery tableName))) (S (length pre)),
     Fail (Errorf ("expected 2 columns, got "
                   +:+ pretty (Z.of_nat (length formatted))))).
Proof.
  intros Hpre Hr Hf Hlen. revert createTable otherStmts.
  induction Hpre as [| r [kind sql] pre ksqls [Hr' Hf'] _ IH];
    intros createTable otherStmts;
    cbn [app length repeat getTableSchema_rows].
  - rewrite bind_emit, Hr, Hf.
    destruct formatted as [| a [| b [| c l]]]; try reflexivity.
    contradiction Hlen. reflexivity.
  - rewrite bind_emit, Hr', Hf'. cbn [fst snd].
    destruct (String.eqb kind "table"); rewrite IH; reflexivity.
Qed.

Lemma dumpTables_rows_dumped config rows ds :
  Forall2 (dumped_as config) rows ds ->
  snd (dumpTables_rows rows config) = Done tt
  /\ lines (fst (dumpTables_rows rows config)) = concat (map dumped_lines ds).
Proof.
  induction 1 as [| r d rows ds (Hr & Hno & Hd) _ [IHs IHl]];
    [split; reflexivity |].
  pose proof (dumpTable_done _ _ _ _ _ Hd) as Hdone.
  rewrite (dumpTables_rows_step _ _ _ Hr (f_equal snd Hdone)).
  cbn [fst snd]. split; [exact IHs |].
  cbn [lines]. rewrite lines_app, IHl, Hdone. cbn [fst concat map].
  rewrite lines_table_events. f_equal. unfold dumped_lines.
  pose proof Hno as Hboth. rewrite forallb_app in Hboth.
  apply andb_prop in Hboth. destruct Hboth as [_ Hafter].
  rewrite (create_of_last_table _ _ _ _ Hafter), aux_of_skips_table.
  rewrite (aux_of_no_table _ Hno). reflexivity.
Qed.

(** X24: when the enumeration query returns the names of tables that are
    all dumped without failure, the command returns nil and the sink
    holds the preamble, then, for each table in the order of the names,
    its CREATE TABLE statement, its INSERT lines and its other
    statements. *)
Theorem dump_of_the_whole_database (config : DbCmdConfig)
    (rows : list RowResult) (ds : list dumped_table) :
  answers config table_names_sql rows ->
  Forall2 (dumped_as config) rows ds ->
  snd (dumpCmd_RunE (Some config)) = Done tt
  /\ lines (fst (dumpCmd_RunE (Some config)))
     = "PRAGMA foreign_keys=OFF;" :: concat (map dumped_lines ds).
Proof.
  intros (sres & sr & more & Hdb & Hch & Herr & Hrows) Hds.
  rewrite (dumpCmd_RunE_first_statement _ _ _ _ Hdb Hch), Herr.
  rewrite bind_return_error_None. unfold dumpTables. rewrite Hrows.
  destruct (dumpTables_rows_dumped config rows ds Hds) as [Hs Hl].
  cbn [fst snd lines]. rewrite Hs, Hl. split; reflexivity.
Qed.

Lemma dumpTables_rows_dumped_then config rows ds rest :
  Forall2 (dumped_as config) rows ds ->
  snd (dumpTables_rows (rows ++ rest) config)
  = snd (dumpTables_rows rest config)
  /\ lines (fst (dumpTables_rows (rows ++ rest) config))
     = concat (map dumped_lines ds)
       ++ lines (fst (dumpTables_rows rest config)).
Proof.
  induction 1 as [| r d rows ds (Hr & Hno & Hd) _ [IHs IHl]];
    [split; reflexivity |].
  pose proof (dumpTable_done _ _ _ _ _ Hd) as Hdone.
  rewrite <- app_comm_cons.
  rewrite (dumpTables_rows_step _ _ _ Hr (f_equal snd Hdone)).
  cbn [fst snd]. split; [exact IHs |].
  cbn [lines]. rewrite lines_app, IHl, Hdone. cbn [fst concat map].
  rewrite lines_table_events, <- app_assoc. f_equal. unfold dumped_lines.
  pose proof Hno as Hboth. rewrite forallb_app in Hboth.
  apply andb_prop in Hboth. destruct Hboth as [_ Hafter].
  rewrite (create_of_last_table _ _ _ _ Hafter), aux_of_skips_table.
  rewrite (aux_of_no_table _ Hno). reflexivity.
Qed.

(** X25: when the enumeration query returns, after the names of tables
    that are dumped without failure, a row without error that is
    formatted to no column at all, the command panics on the index of
    the name, whatever the rows that follow: the sink holds the preamble
    and the lines of the tables before that row, and from the receive of
    the row on no query is run and nothing is written. *)
Theorem name_row_without_column_panics (config : DbCmdConfig)
    (rows : list RowResult) (ds : list dumped_table) (bad : RowResult)
    (post : list RowResult) :
  answers config table_names_sql (rows ++ bad :: post) ->
  Forall2 (dumped_as config) rows ds ->
  RowErr bad = None ->
  FormatData (Row bad) TABLE = Done [] ->
  snd (dumpCmd_RunE (Some config))
  = Panic "runtime error: index out of range [0] with length 0"
  /\ lines (fst (dumpCmd_RunE (Some config)))
     = "PRAGMA foreign_keys=OFF;" :: concat (map dumped_lines ds)
  /\ dumpTables_rows (bad :: post) config
     = ([Recv (RowsOf TableNamesQuery)],
        Panic "runtime error: index out of range [0] with length 0").
Proof.
  intros (sres & sr & more & Hdb & Hch & Herr & Hrows) Hds Hbad Hfmt.
  assert (dumpTables_rows (bad :: post) config
          = ([Recv (RowsOf TableNamesQuery)],
             Panic "runtime error: index out of range [0] with length 0"))
    as Hpanic.
  { cbn [dumpTables_rows]. rewrite bind_emit, Hbad, bind_return_error_None.
    unfold dumpTable. rewrite Hfmt. reflexivity. }
  rewrite (dumpCmd_RunE_first_statement _ _ _ _ Hdb Hch), Herr.
  rewrite bind_return_error_None. unfold dumpTables. rewrite Hrows.
  destruct (dumpTables_rows_dumped_then config rows ds (bad :: post) Hds)
    as [Hs Hl].
  cbn [fst snd lines]. rewrite Hs, Hl, Hpanic. cbn [fst snd lines].
  rewrite app_nil_r. repeat split.
Qed.

End MoreDumpProperties.

Lemma failed_enumeration_leaves_the_preamble_witness :
  snd (dumpCmd_RunE (db := spec_db) (Some broken_config))
  = Fail (Upstream "database is locked")
  /\ lines (fst (dumpCmd_RunE (db := spec_db) (Some broken_config)))
     = ["PRAGMA foreign_keys=OFF;"].
Proof.
  apply (failed_enumeration_leaves_the_preamble (db := spec_db)).
  left. reflexivity.
Defined.

Lemma enumeration_without_row_stream_blocks_witness :
  snd (dumpCmd_RunE (db := spec_db) (Some silent_config)) = Hang
  /\ lines (fst (dumpCmd_RunE (db := spec_db) (Some silent_config)))
     = ["PRAGMA foreign_keys=OFF;"].
Proof.
  apply (enumeration_without_row_stream_blocks (db := spec_db) silent_config
           (mkStatementsResult (Some []))); [reflexivity | exact I].
Defined.

Lemma dump_of_no_table_witness :
  snd (dumpCmd_RunE (db := spec_db) (Some empty_config)) = Done tt
  /\ lines (fst (dumpCmd_RunE (db := spec_db) (Some empty_config)))
     = ["PRAGMA foreign_keys=OFF;"].
Proof.
  apply (dump_of_no_table (db := spec_db)).
  do 3 eexists. repeat split; reflexivity.
Defined.

Lemma schema_query_without_row_stream_blocks_witness :
  snd (dumpTable (db := spec_db) silent_config [Some (VString "t")]) = Hang
  /\ lines (fst (dumpTable (db := spec_db) silent_config [Some (VString "t")]))
     = [].
Proof.
  apply (schema_query_without_row_stream_blocks (db := spec_db) silent_config
           [Some (VString "t")] "t" [] (mkStatementsResult (Some [])));
    [reflexivity | reflexivity | exact I].
Defined.

Lemma dumpTableRecords_keeps_the_lines_before_the_error_witness :
  lines (fst (dumpTableRecords (db := spec_db)
                (mkStatementResult ["a"]
                   (Some ([mkRowResult [Some (VInt KInt64 1)] None]
                          ++ mkRowResult [] (Some (Upstream "disk I/O error"))
                          :: [mkRowResult [Some (VInt KInt64 3)] None])) None)
                "t"))
  = ["INSERT INTO t VALUES (1);"].
Proof.
  refine (proj2 (dumpTableRecords_keeps_the_lines_before_the_error
                   (db := spec_db) ["a"] None "t" _ [["1"]] _
                   (Upstream "disk I/O error") _ _ _)).
  - constructor; [split; reflexivity | constructor].
  - left. reflexivity.
Defined.

Lemma failed_records_leave_no_auxiliary_statement_witness :
  snd (dumpTable (db := spec_db) failing_records_config [Some (VString "t")])
  = Fail (Upstream "disk I/O error")
  /\ lines (fst (dumpTable (db := spec_db) failing_records_config
                   [Some (VString "t")]))
     = ["CREATE TABLE t (a);"; "INSERT INTO t VALUES (1);"].
Proof.
  apply (failed_records_leave_no_auxiliary_statement (db := spec_db)
           failing_records_config [Some (VString "t")] "t" []
           [text_row ["table"; "CREATE TABLE t (a);"];
            text_row ["index"; "CREATE INDEX i ON t (a);"]]
           [("table", "CREATE TABLE t (a);");
            ("index", "CREATE INDEX i ON t (a);")]
           [mkRowResult [Some (VInt KInt64 1)] None] [["1"]]
           (mkRowResult [] (Some (Upstream "disk I/O error")))
           (Upstream "disk I/O error")
           [mkRowResult [Some (VInt KInt64 3)] None]).
  - reflexivity.
  - do 3 eexists. repeat split; reflexivity.
  - repeat (constructor; [split; reflexivity |]). constructor.
  - do 3 eexists. repeat split; reflexivity.
  - constructor; [split; reflexivity | constructor].
  - left. reflexivity.
Defined.

Lemma schema_row_error_is_lost_witness :
  snd (getTableSchema (db := spec_db) failing_schema_config "t") = Done ("", []).
Proof.
  refine (schema_row_error_is_lost (db := spec_db) failing_schema_config "t"
            [text_row ["table"; "CREATE TABLE t (a);"]]
            [("table", "CREATE TABLE t (a);")]
            (mkRowResult [] (Some (Upstream "disk I/O error")))
            (Upstream "disk I/O error") [] _ _ _).
  - do 3 eexists. repeat split; reflexivity.
  - constructor; [split; reflexivity | constructor].
  - reflexivity.
Defined.

Lemma malformed_schema_row_is_an_error_witness :
  getTableSchema_rows (db := spec_db) "s" None
    ([] ++ text_row ["table"; "CREATE TABLE s (a);"; "s"] :: []) "" []
  = ([Recv (RowsOf (SchemaQuery "s"))],
     Fail (Errorf "expected 2 columns, got 3")).
Proof.
  refine (malformed_schema_row_is_an_error (db := spec_db) "s" None [] []
            (text_row ["table"; "CREATE TABLE s (a);"; "s"])
            ["table"; "CREATE TABLE s (a);"; "s"] [] "" [] _ _ _ _).
  - constructor.
  - reflexivity.
  - reflexivity.
  - discriminate.
Defined.

Lemma dump_of_the_whole_database_witness :
  snd (dumpCmd_RunE (db := spec_db) (Some demo_config)) = Done tt
  /\ lines (fst (dumpCmd_RunE (db := spec_db) (Some demo_config)))
     = "PRAGMA foreign_keys=OFF;"
       :: concat (map (dumped_lines (db := spec_db))
                    [mkDumpedTable "t" [] "CREATE TABLE t (a);"
                       [("index", "CREATE INDEX i ON t (a);")]
                       [["1"]; ["NULL"]];
                     mkDumpedTable "u" [] "CREATE TABLE u (b);" [] []]).
Proof.
  apply (dump_of_the_whole_database (db := spec_db) demo_config
           [text_row ["t"]; text_row ["u"]]).
  - do 3 eexists. repeat split; reflexivity.
  - repeat (constructor;
            [split; [reflexivity | split; [reflexivity | solve_table_dump]] |]).
    constructor.
Defined.

Lemma name_row_without_column_panics_witness :
  snd (dumpCmd_RunE (db := spec_db) (Some columnless_config))
  = Panic "runtime error: index out of range [0] with length 0"
  /\ lines (fst (dumpCmd_RunE (db := spec_db) (Some columnless_config)))
     = ["PRAGMA foreign_keys=OFF;"; "CREATE TABLE u (b);"].
Proof.
  refine (let H :=
            name_row_without_column_panics (db := spec_db) columnless_config
              [text_row ["u"]] [mkDumpedTable "u" [] "CREATE TABLE u (b);" [] []]
              (mkRowResult [] None) [text_row ["t"]] _ _ _ _ in
          conj (proj1 H) (proj1 (proj2 H))).
  - do 3 eexists. repeat split; reflexivity.
  - constructor; [| constructor].
    split; [reflexivity | split; [reflexivity | solve_table_dump]].
  - reflexivity.
  - reflexivity.
Defined.
